(** * A graph workflow engine: shallow embedding of [app/engine.py]

    The engine walks one path through a graph of named nodes.  Each node is
    bound to a tool, a transformation of a shared [state] dict; after every
    step the engine appends a snapshot to the run's log and picks the next
    node, either from the reserved key [_next_node] of the state or from the
    graph's static edge map.

    Python dicts with string keys are [gmap string _]; the dict
    [nodes_config], whose iteration order decides which validation error is
    raised first, is the list of its items.  Exceptions are values of
    [PyExc]; a function that may raise returns a sum with the exception on
    the left.  Mutable objects are modelled by state passing: every operation
    of [GraphEngine] returns the engine after the call. *)

From Stdlib Require Import ZArith String List Lia.
From stdpp Require Import gmap strings list fin_maps.

Local Open Scope Z_scope.

(** ** Python values *)

(** What the engine can observe of a Python object that is neither [None]
    nor a [str]: its [str()], its [repr()], its truth value, and whether
    hashing it raises [TypeError] (with which message). *)
Record PyObj := mkPyObj {
  obj_str : string;
  obj_repr : string;
  obj_truthy : bool;
  obj_hash_error : option string
}.

(** The values of type [Any] that reach the engine: state values, edge
    targets, the [tool_name] entry of a node config. *)
Inductive Value :=
| VNone
| VStr (s : string)
| VObj (o : PyObj).

Definition is_None (v : Value) : bool :=
  match v with VNone => true | _ => false end.

(** [bool(v)], as tested by [if not tool_name]. *)
Definition py_truthy (v : Value) : bool :=
  match v with
  | VNone => false
  | VStr s => negb (String.eqb s EmptyString)
  | VObj o => obj_truthy o
  end.

(** [str(v)], as used by f-strings. *)
Definition py_str (v : Value) : string :=
  match v with
  | VNone => "None"
  | VStr s => s
  | VObj o => obj_str o
  end.

Definition hash_error (v : Value) : option string :=
  match v with
  | VObj o => obj_hash_error o
  | _ => None
  end.

(** [state: Dict[str, Any]]. *)
Abbreviation State := (gmap string Value).

(** ** Exceptions *)

Inductive PyExc :=
| KeyError (arg : Value)
| ValueError (msg : string)
| TypeError (msg : string)
| ToolError (text : string).
(** [ToolError text] stands for any [Exception] raised inside a tool, with
    [text] its [str()]. *)

(** A lookup in a dict with string keys by an arbitrary key: unhashable keys
    raise [TypeError], keys that are not strings are never found. *)
Definition dict_lookup {A} (d : gmap string A) (key : Value) : PyExc + option A :=
  match hash_error key with
  | Some msg => inl (TypeError msg)
  | None =>
      match key with
      | VStr s => inr (d !! s)
      | _ => inr None
      end
  end.

(** [d[key]] *)
Definition dict_getitem {A} (d : gmap string A) (key : Value) : PyExc + A :=
  match dict_lookup d key with
  | inl exc => inl exc
  | inr (Some x) => inr x
  | inr None => inl (KeyError key)
  end.

(** [d.get(key)] for a dict of values *)
Definition dict_get (d : gmap string Value) (key : Value) : PyExc + Value :=
  match dict_lookup d key with
  | inl exc => inl exc
  | inr o => inr (default VNone o)
  end.

(** ** Dataclasses *)

Record Node := mkNode {
  n_id : string;
  tool_name : Value
}.

Record StepLog := mkStepLog {
  step_index : Z;
  node_id : Value;
  state_snapshot : State
}.

Record Graph := mkGraph {
  g_id : string;
  g_name : string;
  nodes : gmap string Node;
  edges : gmap string Value;
  start_node : string;
  max_steps : Z
}.

Inductive RunStatus := running | completed | failed.

Record GraphRun := mkGraphRun {
  r_id : string;
  graph_id : string;
  status : RunStatus;
  current_node : Value;
  state : State;
  log : list StepLog;
  error : option string
}.

Definition set_status (s : RunStatus) (run : GraphRun) : GraphRun :=
  mkGraphRun (r_id run) (graph_id run) s (current_node run) (state run) (log run) (error run).

Definition set_current_node (v : Value) (run : GraphRun) : GraphRun :=
  mkGraphRun (r_id run) (graph_id run) (status run) v (state run) (log run) (error run).

Definition set_state (s : State) (run : GraphRun) : GraphRun :=
  mkGraphRun (r_id run) (graph_id run) (status run) (current_node run) s (log run) (error run).

Definition log_append (entry : StepLog) (run : GraphRun) : GraphRun :=
  mkGraphRun (r_id run) (graph_id run) (status run) (current_node run) (state run)
             (log run ++ [entry]) (error run).

Definition set_error (e : option string) (run : GraphRun) : GraphRun :=
  mkGraphRun (r_id run) (graph_id run) (status run) (current_node run) (state run) (log run) e.

(** The reserved branching key. *)
Definition NEXT_NODE : string := "_next_node".

Definition MAX_STEPS_EXCEEDED : string := "Max steps exceeded (possible infinite loop)".

(** ** Tools *)

(** How a call [await tool(run.state)] ends. *)
Inductive Returned :=
| RetArg
| RetDict (d : State)
| RetOther (type_repr : string)
| Raise (text : string).
(** [RetArg]: the tool returns the dict object it was given;
    [RetDict d]: it returns another dict, with contents [d];
    [RetOther t]: it returns a value that is not a dict, [t] being
    [str(type(value))]; [Raise text]: it raises an [Exception]. *)

Section Engine.

(** Everything outside the engine that a tool may read or change (closures,
    globals, files), threaded through the calls. *)
Variable W : Type.

(** Python's [repr] on [str], reached through [str(KeyError(key))]. *)
Variable repr_str : string -> string.

(** The tool receives a reference to the dict [run.state], so what it does
    to that dict in place is seen by the run whatever the call returns:
    [arg_after] is the contents of the argument dict when the call ends. *)
Record ToolResult := mkToolResult {
  env_after : W;
  arg_after : State;
  outcome : Returned
}.

Definition ToolFn : Type := W -> State -> ToolResult.

Definition py_repr (v : Value) : string :=
  match v with
  | VNone => "None"
  | VStr s => repr_str s
  | VObj o => obj_repr o
  end.

(** [str(exc)] *)
Definition str_exc (exc : PyExc) : string :=
  match exc with
  | KeyError arg => py_repr arg
  | ValueError msg => msg
  | TypeError msg => msg
  | ToolError text => text
  end.

(** ** ToolRegistry *)

(** [register] stores the callable under [name]; synchronous and
    asynchronous callables end up behind the same calling convention, which
    is [ToolFn]. *)
Definition ToolRegistry_register (tools : gmap string ToolFn) (name : string) (fn : ToolFn)
  : gmap string ToolFn :=
  <[name := fn]> tools.

Definition ToolRegistry_get (tools : gmap string ToolFn) (name : Value) : PyExc + ToolFn :=
  match dict_lookup tools name with
  | inl exc => inl exc
  | inr None => inl (KeyError (VStr ("Tool '" +:+ py_str name +:+ "' not registered")))
  | inr (Some fn) => inr fn
  end.

(** ** GraphEngine *)

Record GraphEngine := mkGraphEngine {
  tool_registry : gmap string ToolFn;
  graphs : gmap string Graph;
  runs : gmap string GraphRun
}.

Definition GraphEngine_init (tools : gmap string ToolFn) : GraphEngine :=
  mkGraphEngine tools ∅ ∅.

Definition set_graphs (gs : gmap string Graph) (self : GraphEngine) : GraphEngine :=
  mkGraphEngine (tool_registry self) gs (runs self).

Definition set_runs (rs : gmap string GraphRun) (self : GraphEngine) : GraphEngine :=
  mkGraphEngine (tool_registry self) (graphs self) rs.

(** The body of the [for] loop of [create_graph], for one item of
    [nodes_config]: the node it adds to the local dict [nodes], or the
    exception it raises. *)
Definition node_of_config (tools : gmap string ToolFn) (node_id : string) (cfg : State)
  : PyExc + Node :=
  let tool_name := default VNone (cfg !! "tool_name") in
  if negb (py_truthy tool_name) then
    inl (ValueError ("Node '" +:+ node_id +:+ "' missing 'tool_name'"))
  else
    (* Validate that tool exists *)
    match ToolRegistry_get tools tool_name with
    | inl exc => inl exc
    | inr _ => inr (mkNode node_id tool_name)
    end.

(** The [for] loop over [nodes_config.items()]: the first item that fails
    validation raises, the items before it have been added to [nodes]. *)
Fixpoint build_nodes (tools : gmap string ToolFn) (items : list (string * State))
    (nodes : gmap string Node) : PyExc + gmap string Node :=
  match items with
  | [] => inr nodes
  | (node_id, cfg) :: rest =>
      match node_of_config tools node_id cfg with
      | inl exc => inl exc
      | inr node => build_nodes tools rest (<[node_id := node]> nodes)
      end
  end.

(** [uuid4] is the string [str(uuid.uuid4())] drawn by this call. *)
Definition create_graph (self : GraphEngine) (uuid4 : string) (name : string)
    (nodes_config : list (string * State)) (edges : gmap string Value)
    (start_node : string) (max_steps : Z) : GraphEngine * (PyExc + Graph) :=
  if negb (bool_decide (start_node ∈ nodes_config.*1)) then
    (self, inl (ValueError "start_node must be one of nodes_config keys"))
  else
    match build_nodes (tool_registry self) nodes_config ∅ with
    | inl exc => (self, inl exc)
    | inr nodes =>
        let graph := mkGraph uuid4 name nodes edges start_node max_steps in
        (set_graphs (<[uuid4 := graph]> (graphs self)) self, inr graph)
    end.

(** ** The run loop *)

(** The local variables of [run_graph] that the [while] loop changes, with
    the run object they point to and the tools' environment. *)
Record LoopVars := mkLoopVars {
  lv_run : GraphRun;
  lv_step_index : Z;
  lv_current_node_id : Value;
  lv_env : W
}.

(** One iteration either raises, leaving the run as it was at the [raise],
    or reaches the end of the loop body. *)
Inductive BodyResult :=
| Raised (run : GraphRun) (env : W) (exc : PyExc)
| Next (vars : LoopVars).

(** [current_node_id is not None and step_index < graph.max_steps] *)
Definition loop_cond (graph : Graph) (v : LoopVars) : bool :=
  negb (is_None (lv_current_node_id v)) && (lv_step_index v <? max_steps graph).

(** [new_state = await tool(run.state)] followed by the [isinstance]
    check, on the result [r] of the call: the new state, or the exception. *)
Definition check_returned (node : Node) (r : ToolResult) : PyExc + State :=
  match outcome r with
  | RetArg => inr (arg_after r)
  | RetDict d => inr d
  | RetOther type_repr =>
      inl (TypeError ("Tool '" +:+ py_str (tool_name node)
                      +:+ "' must return a dict, got " +:+ type_repr))
  | Raise text => inl (ToolError text)
  end.

Definition loop_body (tools : gmap string ToolFn) (graph : Graph) (v : LoopVars)
  : BodyResult :=
  let current_node_id := lv_current_node_id v in
  let run := set_current_node current_node_id (lv_run v) in
  match dict_getitem (nodes graph) current_node_id with
  | inl exc => Raised run (lv_env v) exc
  | inr node =>
  match ToolRegistry_get tools (tool_name node) with
  | inl exc => Raised run (lv_env v) exc
  | inr tool =>
  (* Execute node *)
  let r := tool (lv_env v) (state run) in
  let run := set_state (arg_after r) run in
  match check_returned node r with
  | inl exc => Raised run (env_after r) exc
  | inr new_state =>
  let run := set_state new_state run in
  (* Log snapshot (shallow copy) *)
  let run := log_append (mkStepLog (lv_step_index v) current_node_id (state run)) run in
  (* Branching / looping support *)
  let override := default VNone (state run !! NEXT_NODE) in
  let run := set_state (delete NEXT_NODE (state run)) run in
  let next :=
    if negb (is_None override) then inr override
    else dict_get (edges graph) current_node_id in
  match next with
  | inl exc => Raised run (env_after r) exc
  | inr next_node_id =>
      Next (mkLoopVars run (lv_step_index v + 1) next_node_id (env_after r))
  end end end end.

(** The next node chosen at the end of an iteration, from the state the tool
    returned: the value popped from the reserved key unless it is [None],
    the static edge otherwise. *)
Definition next_of (graph : Graph) (current_node_id : Value) (new_state : State)
  : PyExc + Value :=
  if negb (is_None (default VNone (new_state !! NEXT_NODE)))
  then inr (default VNone (new_state !! NEXT_NODE))
  else dict_get (edges graph) current_node_id.

(** The [while] loop.  [fuel] bounds the number of iterations; [None] means
    the bound was too small. *)
Fixpoint while_loop (fuel : nat) (tools : gmap string ToolFn) (graph : Graph)
    (v : LoopVars) : option BodyResult :=
  if loop_cond graph v then
    match fuel with
    | O => None
    | S fuel' =>
        match loop_body tools graph v with
        | Raised run env exc => Some (Raised run env exc)
        | Next v' => while_loop fuel' tools graph v'
        end
    end
  else Some (Next v).

(** The [if]/[else] after the loop. *)
Definition after_loop (graph : Graph) (v : LoopVars) : GraphRun :=
  if max_steps graph <=? lv_step_index v then
    set_error (Some MAX_STEPS_EXCEEDED) (set_status failed (lv_run v))
  else
    set_current_node VNone (set_status completed (lv_run v)).

(** [except Exception as exc] *)
Definition on_exception (run : GraphRun) (exc : PyExc) : GraphRun :=
  set_error (Some (str_exc exc)) (set_status failed run).

(** The body of the [try] statement and its handler. *)
Definition finish (graph : Graph) (res : BodyResult) : GraphRun * W :=
  match res with
  | Next v => (after_loop graph v, lv_env v)
  | Raised run env exc => (on_exception run exc, env)
  end.

Definition init_run (uuid4 graph_id : string) (graph : Graph) (initial_state : State)
  : GraphRun :=
  mkGraphRun uuid4 graph_id running (VStr (start_node graph)) initial_state [] None.

Definition init_vars (run : GraphRun) (graph : Graph) (env : W) : LoopVars :=
  mkLoopVars run 0 (VStr (start_node graph)) env.

(** [run_graph].  The run object is stored in [self.runs] before the loop
    and changed in place afterwards, so the store sees every change: the
    entry of [self.runs] is written again when the call ends.  The loop runs
    with a fuel of [max_steps]; [run_graph_total] shows that this is
    enough. *)
Definition run_graph (self : GraphEngine) (env : W) (uuid4 : string)
    (graph_id : string) (initial_state : State)
  : option (GraphEngine * W * (PyExc + GraphRun)) :=
  match graphs self !! graph_id with
  | None =>
      Some (self, env, inl (KeyError (VStr ("Graph '" +:+ graph_id +:+ "' not found"))))
  | Some graph =>
      let run := init_run uuid4 graph_id graph initial_state in
      let self := set_runs (<[uuid4 := run]> (runs self)) self in
      match while_loop (Z.to_nat (max_steps graph)) (tool_registry self) graph
                       (init_vars run graph env) with
      | None => None
      | Some res =>
          let '(run, env) := finish graph res in
          Some (set_runs (<[uuid4 := run]> (runs self)) self, env, inr run)
      end
  end.

Definition get_run (self : GraphEngine) (run_id : string) : PyExc + GraphRun :=
  match runs self !! run_id with
  | None => inl (KeyError (VStr ("Run '" +:+ run_id +:+ "' not found")))
  | Some run => inr run
  end.

(** ** Executions *)

(** [iterates tools graph k v v']: starting with the loop variables [v], the
    loop condition holds and the loop body reaches its end [k] times in a
    row, which leaves the loop variables [v']. *)
Inductive iterates (tools : gmap string ToolFn) (graph : Graph)
  : nat -> LoopVars -> LoopVars -> Prop :=
| iterates_O v : iterates tools graph O v v
| iterates_S k v v1 v2 :
    loop_cond graph v = true ->
    loop_body tools graph v = Next v1 ->
    iterates tools graph k v1 v2 ->
    iterates tools graph (S k) v v2.

(** How the loop ends at the loop variables [v]: the loop condition fails,
    or the iteration raises. *)
Inductive loop_end (tools : gmap string ToolFn) (graph : Graph)
  : LoopVars -> BodyResult -> Prop :=
| loop_end_cond v :
    loop_cond graph v = false -> loop_end tools graph v (Next v)
| loop_end_raise v run env exc :
    loop_cond graph v = true ->
    loop_body tools graph v = Raised run env exc ->
    loop_end tools graph v (Raised run env exc).

(** The log entry [entry] records the step taken from the loop variables
    [v]: the loop condition held, the node and its tool resolved, the tool
    returned a dict, and the entry holds the step counter, the node id and
    that dict. *)
Definition records_step (tools : gmap string ToolFn) (graph : Graph) (v : LoopVars)
    (entry : StepLog) : Prop :=
  loop_cond graph v = true /\
  exists node tool,
    dict_getitem (nodes graph) (lv_current_node_id v) = inr node /\
    ToolRegistry_get tools (tool_name node) = inr tool /\
    check_returned node (tool (lv_env v) (state (lv_run v))) = inr (state_snapshot entry) /\
    step_index entry = lv_step_index v /\
    node_id entry = lv_current_node_id v.

(** The engines a process can hold, with the ids of the runs that were
    created on the way: a new engine, then any sequence of registrations,
    [create_graph] calls and [run_graph] calls. *)
Inductive history : GraphEngine -> list string -> Prop :=
| history_init tools : history (GraphEngine_init tools) []
| history_register self ids name fn :
    history self ids ->
    history (mkGraphEngine (ToolRegistry_register (tool_registry self) name fn)
                           (graphs self) (runs self)) ids
| history_create_graph self ids uuid4 name nodes_config edges start_node max_steps :
    history self ids ->
    history (create_graph self uuid4 name nodes_config edges start_node max_steps).1 ids
| history_run_graph self ids env uuid4 graph_id initial_state self' env' res :
    history self ids ->
    run_graph self env uuid4 graph_id initial_state = Some (self', env', res) ->
    history self' (match res with inl _ => ids | inr run => r_id run :: ids end).

End Engine.

Arguments mkToolResult {W} _ _ _.
Arguments env_after {W} _.
Arguments arg_after {W} _.
Arguments outcome {W} _.
Arguments mkGraphEngine {W} _ _ _.
Arguments tool_registry {W} _.
Arguments graphs {W} _.
Arguments runs {W} _.
Arguments GraphEngine_init {W} _.
Arguments ToolRegistry_register {W} _ _ _.
Arguments ToolRegistry_get {W} _ _.
Arguments node_of_config {W} _ _ _.
Arguments build_nodes {W} _ _ _.
Arguments create_graph {W} _ _ _ _ _ _ _.
Arguments mkLoopVars {W} _ _ _ _.
Arguments lv_run {W} _.
Arguments lv_step_index {W} _.
Arguments lv_current_node_id {W} _.
Arguments lv_env {W} _.
Arguments Raised {W} _ _ _.
Arguments Next {W} _.
Arguments loop_cond {W} _ _.
Arguments check_returned {W} _ _.
Arguments loop_body {W} _ _ _.
Arguments while_loop {W} _ _ _ _.
Arguments after_loop {W} _ _.
Arguments on_exception _ _ _ : assert.
Arguments finish {W} _ _ _.
Arguments init_vars {W} _ _ _.
Arguments run_graph {W} _ _ _ _ _ _.
Arguments get_run {W} _ _.
Arguments iterates {W} _ _ _ _ _.
Arguments records_step {W} _ _ _ _.
Arguments loop_end {W} _ _ _ _.
Arguments history {W} _ _ _.

(** ** Tools and graphs used in the examples *)

Module Examples.

(** [repr] of a string without quotes, backslashes or control characters. *)
Definition repr_plain (s : string) : string := "'" +:+ s +:+ "'".

(** A tool that returns its argument unchanged. *)
Definition identity_tool : ToolFn unit :=
  fun w state => mkToolResult w state RetArg.

(** The last lines of [suggest_improvements_tool] when the loop is over:
    [state["_next_node"] = None; return state]. *)
Definition stop_tool : ToolFn unit :=
  fun w state => mkToolResult w (<[NEXT_NODE := VNone]> state) RetArg.

(** [state["_next_node"] = target; return state] *)
Definition goto_tool (target : string) : ToolFn unit :=
  fun w state => mkToolResult w (<[NEXT_NODE := VStr target]> state) RetArg.

(** [extract_functions_tool] on a state whose code defines no function and
    whose key [iteration] holds [None]: it stores the list of function names,
    keeps the [None], fills in the other defaults and raises [TypeError] at
    [state["iteration"] += 1]. *)
Definition empty_list : Value := VObj (mkPyObj "[]" "[]" false (Some "unhashable type: 'list'")).
Definition float_zero : Value := VObj (mkPyObj "0.0" "0.0" false None).

Definition failing_extract_tool : ToolFn unit :=
  fun w state =>
    let state := <["functions" := empty_list]> state in
    let state := if state !! "issues" is Some _ then state else <["issues" := empty_list]> state in
    let state :=
      if state !! "quality_score" is Some _ then state else <["quality_score" := float_zero]> state in
    mkToolResult w state
      (Raise "unsupported operand type(s) for +=: 'NoneType' and 'int'").

(** A synchronous tool without a [return] statement. *)
Definition forgetful_tool : ToolFn unit :=
  fun w state => mkToolResult w (<["seen" := VStr "yes"]> state) (RetOther "<class 'NoneType'>").

Definition tools : gmap string (ToolFn unit) :=
  ToolRegistry_register
    (ToolRegistry_register
      (ToolRegistry_register
        (ToolRegistry_register ∅ "identity" identity_tool)
        "stop" stop_tool)
      "again" (goto_tool "a"))
    "extract_functions" failing_extract_tool.

Definition engine0 : GraphEngine unit := GraphEngine_init tools.

Definition cfg (tool : string) : State := {[ "tool_name" := VStr tool ]}.

(** The graph a call of [create_graph] returned and the run a call of
    [run_graph] returned, with the engine it left. *)
Definition graph_of (r : GraphEngine unit * (PyExc + Graph)) : Graph :=
  match r.2 with
  | inr graph => graph
  | inl _ => mkGraph EmptyString EmptyString ∅ ∅ EmptyString 0
  end.

Definition run_of (r : option (GraphEngine unit * unit * (PyExc + GraphRun))) : GraphRun :=
  match r with
  | Some (_, _, inr run) => run
  | _ => mkGraphRun EmptyString EmptyString running VNone ∅ [] None
  end.

Definition engine_of (r : option (GraphEngine unit * unit * (PyExc + GraphRun)))
  : GraphEngine unit :=
  match r with
  | Some (self, _, _) => self
  | None => engine0
  end.

(** a -> b, both nodes end with [_next_node = None]. *)
Definition created_chain :=
  create_graph engine0 "g-chain" "chain"
    [("a", cfg "stop"); ("b", cfg "stop")]
    {[ "a" := VStr "b"; "b" := VNone ]} "a" 100.
Definition engine_chain : GraphEngine unit := created_chain.1.
Definition chain_graph : Graph := graph_of created_chain.
Definition chain_result := run_graph repr_plain engine_chain tt "run-1" "g-chain" ∅.

(** One node, no edge, a budget of one step. *)
Definition created_single :=
  create_graph engine0 "g-single" "single" [("a", cfg "identity")] ∅ "a" 1.
Definition engine_single : GraphEngine unit := created_single.1.
Definition single_graph : Graph := graph_of created_single.
Definition single_result := run_graph repr_plain engine_single tt "run-1" "g-single" ∅.

(** One node that always jumps back to itself. *)
Definition created_loop :=
  create_graph engine0 "g-loop" "loop" [("a", cfg "again")] ∅ "a" 3.
Definition engine_loop : GraphEngine unit := created_loop.1.
Definition loop_graph : Graph := graph_of created_loop.
Definition loop_result := run_graph repr_plain engine_loop tt "run-1" "g-loop" ∅.


End Examples.

(** ** The default workflow: [build_default_code_review_graph] *)

Section Workflows.

Variable W : Type.
Variable repr_str : string -> string.

(** The helper of [app/workflows/code_review.py] that creates the example
    graph on the engine it is given and returns the id of the graph. *)
Definition build_default_code_review_graph (engine : GraphEngine W) (uuid4 : string)
  : GraphEngine W * (PyExc + string) :=
  let nodes_config : list (string * State) :=
    [ ("extract", {[ "tool_name" := VStr "extract_functions" ]});
      ("complexity", {[ "tool_name" := VStr "check_complexity" ]});
      ("issues", {[ "tool_name" := VStr "detect_issues" ]});
      ("suggest", {[ "tool_name" := VStr "suggest_improvements" ]}) ] in
  let edges : State :=
    <["extract" := VStr "complexity"]>
    (<["complexity" := VStr "issues"]>
    (<["issues" := VStr "suggest"]>
    (* 'suggest' has no default next; loop is controlled via _next_node *)
    (<["suggest" := VNone]> ∅))) in
  match create_graph engine uuid4 "code_review_mini_agent" nodes_config edges "extract" 50 with
  | (engine, inl exc) => (engine, inl exc)
  | (engine, inr graph) => (engine, inr (g_id graph))
  end.

(** ** The API layer: [app/models.py] and the create handler of [app/main.py] *)

(** The request and response models.  A request reaches the handler after
    the framework has checked it against its model, so its fields have the
    declared types. *)
Record GraphNodeConfig := mkGraphNodeConfig {
  cfg_tool_name : string
}.

Record GraphCreateRequest := mkGraphCreateRequest {
  req_name : string;
  req_nodes : list (string * GraphNodeConfig);
  req_edges : gmap string (option string);
  req_start_node : string;
  req_max_steps : Z
}.

Record GraphCreatedResponse := mkGraphCreatedResponse {
  resp_graph_id : string;
  resp_name : string
}.

(** How a handler ends: with its response, with an [HTTPException], or with
    an exception it does not catch. *)
Inductive Handled (A : Type) :=
| Respond (body : A)
| HTTPException (status_code : Z) (detail : string)
| Propagates (exc : PyExc).

(** A value of type [Optional[str]] as a value of type [Any]. *)
Definition of_optional (o : option string) : Value :=
  match o with
  | Some s => VStr s
  | None => VNone
  end.

(** [POST /graph/create] on the module's engine. *)
Definition api_create_graph (engine : GraphEngine W) (uuid4 : string)
    (payload : GraphCreateRequest) : GraphEngine W * Handled GraphCreatedResponse :=
  let nodes_config : list (string * State) :=
    map (fun item => (item.1, {[ "tool_name" := VStr (cfg_tool_name item.2) ]}))
        (req_nodes payload) in
  match create_graph engine uuid4 (req_name payload) nodes_config
          (of_optional <$> req_edges payload) (req_start_node payload)
          (req_max_steps payload) with
  | (engine, inr graph) =>
      (engine, Respond _ (mkGraphCreatedResponse (g_id graph) (g_name graph)))
  | (engine, inl (KeyError arg)) =>
      (engine, HTTPException _ 400 (str_exc repr_str (KeyError arg)))
  | (engine, inl (ValueError msg)) =>
      (engine, HTTPException _ 400 (str_exc repr_str (ValueError msg)))
  | (engine, inl exc) => (engine, Propagates _ exc)
  end.

(** ** Predicates on graphs *)

(** What [create_graph] establishes for a graph stored under [graph_id] and
    what later registrations keep: the graph carries its id, its start node
    is one of its nodes, every node carries its key as id and names a
    registered tool. *)
Definition well_formed_graph (tools : gmap string (ToolFn W)) (graph_id : string)
    (graph : Graph) : Prop :=
  g_id graph = graph_id /\
  is_Some (nodes graph !! start_node graph) /\
  forall node_id node, nodes graph !! node_id = Some node ->
    n_id node = node_id /\
    exists t fn, tool_name node = VStr t /\ tools !! t = Some fn.

(** The tool [tool] of [node] does not branch on its own: given a state
    without the reserved key, it returns a dict in which the key is missing
    or [None]. *)
Definition adds_no_branch (node : Node) (tool : ToolFn W) : Prop :=
  forall w st, st !! NEXT_NODE = None ->
    exists new_state,
      check_returned node (tool w st) = inr new_state /\
      default VNone (new_state !! NEXT_NODE) = VNone.

(** [path] is a chain of the graph: each of its nodes resolves to a
    registered tool that does not branch on its own, the static edge of each
    node leads to the next node of the path, and the last node has no next
    node. *)
Fixpoint static_chain (tools : gmap string (ToolFn W)) (graph : Graph)
    (path : list string) : Prop :=
  match path with
  | [] => True
  | s :: rest =>
      (exists node tool,
         nodes graph !! s = Some node /\
         ToolRegistry_get tools (tool_name node) = inr tool /\
         adds_no_branch node tool) /\
      default VNone (edges graph !! s) =
        match rest with [] => VNone | s' :: _ => VStr s' end /\
      static_chain tools graph rest
  end.

End Workflows.

Arguments build_default_code_review_graph {W} _ _.
Arguments Respond {A} _.
Arguments HTTPException {A} _ _.
Arguments Propagates {A} _.
Arguments api_create_graph {W} _ _ _ _.
Arguments well_formed_graph {W} _ _ _.
Arguments adds_no_branch {W} _ _.
Arguments static_chain {W} _ _ _.

(** ** More tools and graphs for the examples *)

Module MoreExamples.

Import Examples.

(** A -> B -> C with identity tools. *)
Definition created_abc :=
  create_graph engine0 "g-abc" "abc"
    [("A", cfg "identity"); ("B", cfg "identity"); ("C", cfg "identity")]
    {[ "A" := VStr "B"; "B" := VStr "C" ]} "A" 100.
Definition engine_abc : GraphEngine unit := created_abc.1.
Definition abc_graph : Graph := graph_of created_abc.
Definition abc_state : State := {[ "code" := VStr "pass" ]}.
Definition abc_result := run_graph repr_plain engine_abc tt "run-1" "g-abc" abc_state.

(** The edge of [a] leads to a node that does not exist. *)
Definition created_dangling :=
  create_graph engine0 "g-dangling" "dangling" [("a", cfg "identity")]
    {[ "a" := VStr "ghost" ]} "a" 10.
Definition engine_dangling : GraphEngine unit := created_dangling.1.
Definition dangling_graph : Graph := graph_of created_dangling.
Definition dangling_result :=
  run_graph repr_plain engine_dangling tt "run-1" "g-dangling" ∅.

(** A budget of zero steps. *)
Definition created_zero :=
  create_graph engine0 "g-zero" "zero" [("a", cfg "identity")] ∅ "a" 0.
Definition engine_zero : GraphEngine unit := created_zero.1.
Definition zero_graph : Graph := graph_of created_zero.
Definition zero_result := run_graph repr_plain engine_zero tt "run-1" "g-zero" abc_state.

(** The registry of [app/main.py], with stand-ins for the four tools. *)
Definition review_tools : gmap string (ToolFn unit) :=
  ToolRegistry_register
    (ToolRegistry_register
      (ToolRegistry_register
        (ToolRegistry_register ∅ "extract_functions" identity_tool)
        "check_complexity" identity_tool)
      "detect_issues" identity_tool)
    "suggest_improvements" stop_tool.

Definition review_engine : GraphEngine unit := GraphEngine_init review_tools.

(** The loop variables after the first step of the dangling graph and of
    the graph with a budget of one step. *)
Definition vars_after_step (graph : Graph) (v : LoopVars unit) : LoopVars unit :=
  match loop_body tools graph v with
  | Next v' => v'
  | Raised _ _ _ => v
  end.

Definition dangling_v0 : LoopVars unit :=
  init_vars (init_run "run-1" "g-dangling" dangling_graph ∅) dangling_graph tt.
Definition dangling_v1 : LoopVars unit := vars_after_step dangling_graph dangling_v0.

Definition single_v0 : LoopVars unit :=
  init_vars (init_run "run-1" "g-single" single_graph ∅) single_graph tt.
Definition single_v1 : LoopVars unit := vars_after_step single_graph single_v0.

Definition create_request : GraphCreateRequest :=
  mkGraphCreateRequest "two steps"
    [("first", mkGraphNodeConfig "identity"); ("second", mkGraphNodeConfig "stop")]
    {[ "first" := Some "second"; "second" := None ]} "first" 10.

End MoreExamples.

(** * Properties *)

Section Properties.

Context {W : Type} (repr_str : string -> string).

Implicit Types (tools : gmap string (ToolFn W)) (graph : Graph) (v : LoopVars W).
Implicit Types (self : GraphEngine W) (run : GraphRun) (exc : PyExc) (env : W).

(** ** Lookups *)

Lemma dict_getitem_inr {A} (d : gmap string A) key x :
  dict_getitem d key = inr x -> exists s, key = VStr s /\ d !! s = Some x.
Proof.
  unfold dict_getitem, dict_lookup.
  destruct (hash_error key); [discriminate|].
  destruct key as [|s|o]; try discriminate.
  destruct (d !! s) as [y|] eqn:E; [|discriminate].
  intros [= ->]. eauto.
Qed.

Lemma dict_get_VStr (d : gmap string Value) s :
  dict_get d (VStr s) = inr (default VNone (d !! s)).
Proof. reflexivity. Qed.

Lemma ToolRegistry_get_inr tools name fn :
  ToolRegistry_get tools name = inr fn -> exists s, name = VStr s /\ tools !! s = Some fn.
Proof.
  unfold ToolRegistry_get, dict_lookup.
  destruct (hash_error name); [discriminate|].
  destruct name as [|s|o]; try discriminate.
  destruct (tools !! s) as [y|] eqn:E; [|discriminate].
  intros [= ->]. eauto.
Qed.

(** ** One iteration *)

Lemma loop_body_Next tools graph v v' :
  loop_body tools graph v = Next v' ->
  exists node tool new_state,
    dict_getitem (nodes graph) (lv_current_node_id v) = inr node /\
    ToolRegistry_get tools (tool_name node) = inr tool /\
    check_returned node (tool (lv_env v) (state (lv_run v))) = inr new_state /\
    next_of graph (lv_current_node_id v) new_state = inr (lv_current_node_id v') /\
    log (lv_run v') =
      log (lv_run v) ++ [mkStepLog (lv_step_index v) (lv_current_node_id v) new_state] /\
    state (lv_run v') = delete NEXT_NODE new_state /\
    lv_step_index v' = lv_step_index v + 1 /\
    lv_env v' = env_after (tool (lv_env v) (state (lv_run v))) /\
    current_node (lv_run v') = lv_current_node_id v /\
    r_id (lv_run v') = r_id (lv_run v) /\
    status (lv_run v') = status (lv_run v) /\
    error (lv_run v') = error (lv_run v).
Proof.
  unfold loop_body. intros H.
  destruct (dict_getitem _ _) as [?|node] eqn:Hn; [discriminate|].
  destruct (ToolRegistry_get _ _) as [?|tool] eqn:Ht; [discriminate|].
  cbn [state set_current_node set_state log_append] in H.
  destruct (check_returned _ _) as [?|new_state] eqn:Hr; [discriminate|].
  fold (next_of graph (lv_current_node_id v) new_state) in H.
  destruct (next_of _ _ _) as [?|nxt] eqn:Hx; [discriminate|].
  injection H as <-. exists node, tool, new_state. cbn. repeat split; auto.
Qed.

Lemma loop_body_Raised tools graph v run env exc :
  loop_body tools graph v = Raised run env exc ->
  log run = log (lv_run v) /\
  r_id run = r_id (lv_run v) /\
  current_node run = lv_current_node_id v /\
  ((state run = state (lv_run v) /\ env = lv_env v /\
    (dict_getitem (nodes graph) (lv_current_node_id v) = inl exc \/
     exists node, dict_getitem (nodes graph) (lv_current_node_id v) = inr node /\
                  ToolRegistry_get tools (tool_name node) = inl exc)) \/
   exists node tool,
     dict_getitem (nodes graph) (lv_current_node_id v) = inr node /\
     ToolRegistry_get tools (tool_name node) = inr tool /\
     check_returned node (tool (lv_env v) (state (lv_run v))) = inl exc /\
     state run = arg_after (tool (lv_env v) (state (lv_run v))) /\
     env = env_after (tool (lv_env v) (state (lv_run v)))).
Proof.
  unfold loop_body. intros H.
  destruct (dict_getitem _ _) as [e|node] eqn:Hn.
  { injection H as <- <- <-. cbn. repeat split; auto. }
  destruct (ToolRegistry_get _ _) as [e|tool] eqn:Ht.
  { injection H as <- <- <-. cbn. repeat split; auto. left. eauto 6. }
  cbn [state set_current_node set_state log_append] in H.
  destruct (check_returned _ _) as [e|new_state] eqn:Hr.
  { injection H as <- <- <-. cbn. repeat split; auto. right. eauto 8. }
  exfalso.
  destruct (dict_getitem_inr _ _ _ Hn) as (s & Hs & _). rewrite Hs in H.
  destruct (negb _); [discriminate|]. rewrite dict_get_VStr in H. discriminate.
Qed.

(** ** The loop *)

Lemma while_loop_exit fuel tools graph v :
  loop_cond graph v = false -> while_loop fuel tools graph v = Some (Next v).
Proof. intros H. destruct fuel; cbn; rewrite H; reflexivity. Qed.

Lemma while_loop_iterates tools graph k v v' fuel :
  iterates tools graph k v v' ->
  while_loop (k + fuel) tools graph v = while_loop fuel tools graph v'.
Proof.
  induction 1 as [|k v v1 v2 Hc Hb _ IH]; [reflexivity|].
  cbn [Nat.add while_loop]. rewrite Hc, Hb. exact IH.
Qed.

Lemma iterates_snoc tools graph k v v1 v2 :
  iterates tools graph k v v1 ->
  loop_cond graph v1 = true ->
  loop_body tools graph v1 = Next v2 ->
  iterates tools graph (S k) v v2.
Proof.
  induction 1; intros Hc Hb.
  - econstructor; eauto. constructor.
  - econstructor; eauto.
Qed.

Lemma iterates_step_index tools graph k v v' :
  iterates tools graph k v v' -> lv_step_index v' = lv_step_index v + Z.of_nat k.
Proof.
  induction 1 as [|k v v1 v2 Hc Hb _ IH]; [lia|].
  apply loop_body_Next in Hb as (? & ? & ? & _ & _ & _ & _ & _ & _ & Hs & _). lia.
Qed.

(** The log grows by one entry per iteration, and each new entry records the
    step taken from the loop variables reached at that point. *)
Lemma iterates_log tools graph k v v' :
  iterates tools graph k v v' ->
  exists entries,
    log (lv_run v') = log (lv_run v) ++ entries /\
    length entries = k /\
    forall i entry, entries !! i = Some entry ->
      exists vi, iterates tools graph i v vi /\ records_step tools graph vi entry.
Proof.
  induction 1 as [v|k v v1 v2 Hc Hb Hit IH].
  - exists []. rewrite app_nil_r. repeat split; auto. intros i e; by rewrite lookup_nil.
  - destruct IH as (entries & Hlog & Hlen & Hrec).
    destruct (loop_body_Next _ _ _ _ Hb)
      as (node & tool & st & Hn & Ht & Hr & _ & Hl & _ & _ & _).
    exists (mkStepLog (lv_step_index v) (lv_current_node_id v) st :: entries).
    split; [|split].
    + rewrite Hlog, Hl, <- app_assoc. reflexivity.
    + cbn. lia.
    + intros [|i] e He; cbn in He.
      * injection He as <-. exists v. split; [constructor|].
        split; [exact Hc|]. exists node, tool. cbn. auto.
      * destruct (Hrec i e He) as (vi & Hvi & Hrs).
        exists vi. split; [|exact Hrs]. econstructor; eauto.
Qed.

Lemma iterates_run_fields tools graph k v v' :
  iterates tools graph k v v' ->
  r_id (lv_run v') = r_id (lv_run v) /\
  status (lv_run v') = status (lv_run v) /\
  error (lv_run v') = error (lv_run v).
Proof.
  induction 1 as [|k v v1 v2 Hc Hb _ IH]; [auto|].
  apply loop_body_Next in Hb
    as (? & ? & ? & _ & _ & _ & _ & _ & _ & _ & _ & _ & H1 & H2 & H3).
  destruct IH as (-> & -> & ->). auto.
Qed.

Lemma while_loop_Some tools graph fuel v res :
  while_loop fuel tools graph v = Some res ->
  exists k vk, iterates tools graph k v vk /\ loop_end tools graph vk res.
Proof.
  revert v. induction fuel as [|fuel IH]; intros v; cbn [while_loop].
  - destruct (loop_cond graph v) eqn:Hc; [discriminate|].
    intros [= <-]. exists O, v. split; constructor; auto.
  - destruct (loop_cond graph v) eqn:Hc.
    + destruct (loop_body tools graph v) as [run env exc|v1] eqn:Hb.
      * intros [= <-]. exists O, v. split; [constructor|]. by constructor.
      * intros H. destruct (IH _ H) as (k & vk & Hit & Hend).
        exists (S k), vk. split; [econstructor; eauto|exact Hend].
    + intros [= <-]. exists O, v. split; constructor; auto.
Qed.

(** The step budget bounds the number of iterations, so a fuel of what is
    left of the budget is enough. *)
Lemma while_loop_total tools graph fuel v :
  (Z.to_nat (max_steps graph - lv_step_index v) <= fuel)%nat ->
  exists res, while_loop fuel tools graph v = Some res.
Proof.
  revert v. induction fuel as [|fuel IH]; intros v Hf; cbn [while_loop].
  - destruct (loop_cond graph v) eqn:Hc; [|eauto].
    unfold loop_cond in Hc. apply andb_prop in Hc as [_ Hlt].
    apply Z.ltb_lt in Hlt. lia.
  - destruct (loop_cond graph v) eqn:Hc; [|eauto].
    destruct (loop_body tools graph v) as [run env exc|v1] eqn:Hb; [eauto|].
    apply IH.
    apply loop_body_Next in Hb as (? & ? & ? & _ & _ & _ & _ & _ & _ & Hs & _). lia.
Qed.

Lemma iterates_budget tools graph k v v' :
  iterates tools graph k v v' -> k = O \/ lv_step_index v' <= max_steps graph.
Proof.
  induction 1 as [|k v v1 v2 Hc Hb Hit IH]; [auto|]. right.
  destruct IH as [->|IH]; [|exact IH].
  inversion Hit; subst.
  apply loop_body_Next in Hb as (? & ? & ? & _ & _ & _ & _ & _ & _ & Hs & _).
  unfold loop_cond in Hc. apply andb_prop in Hc as [_ Hlt].
  apply Z.ltb_lt in Hlt. lia.
Qed.

(** ** [run_graph] as a whole *)

Lemma run_graph_unknown self env uuid4 graph_id initial_state :
  graphs self !! graph_id = None ->
  run_graph repr_str self env uuid4 graph_id initial_state =
    Some (self, env, inl (KeyError (VStr ("Graph '" +:+ graph_id +:+ "' not found")))).
Proof. intros H. unfold run_graph. rewrite H. reflexivity. Qed.

(** A call for a known graph is a number of complete iterations, the end of
    the loop, and the code after the loop or the exception handler. *)
Lemma run_graph_known self env uuid4 graph_id initial_state graph :
  graphs self !! graph_id = Some graph ->
  let run0 := init_run uuid4 graph_id graph initial_state in
  exists k vk res,
    iterates (tool_registry self) graph k (init_vars run0 graph env) vk /\
    loop_end (tool_registry self) graph vk res /\
    run_graph repr_str self env uuid4 graph_id initial_state =
      Some (mkGraphEngine (tool_registry self) (graphs self)
              (<[uuid4 := (finish repr_str graph res).1]> (<[uuid4 := run0]> (runs self))),
            (finish repr_str graph res).2,
            inr (finish repr_str graph res).1).
Proof.
  intros Hg run0. unfold run_graph. rewrite Hg. cbn [tool_registry set_runs runs graphs].
  fold run0.
  destruct (while_loop_total (tool_registry self) graph (Z.to_nat (max_steps graph))
              (init_vars run0 graph env)) as [res Hres].
  { cbn. lia. }
  rewrite Hres.
  destruct (while_loop_Some _ _ _ _ _ Hres) as (k & vk & Hit & Hend).
  exists k, vk, res. repeat split; auto.
  destruct (finish repr_str graph res) as [run env'] eqn:Hf. reflexivity.
Qed.

Lemma finish_Raised graph run env exc :
  finish repr_str graph (Raised run env exc) =
    (set_error (Some (str_exc repr_str exc)) (set_status failed run), env).
Proof. reflexivity. Qed.

Lemma finish_Next graph v :
  finish repr_str graph (Next v) = (after_loop graph v, lv_env v).
Proof. reflexivity. Qed.

Lemma after_loop_fields graph v :
  log (after_loop graph v) = log (lv_run v) /\
  state (after_loop graph v) = state (lv_run v) /\
  r_id (after_loop graph v) = r_id (lv_run v).
Proof. unfold after_loop. destruct (_ <=? _); auto. Qed.

Lemma finish_log tools graph vk res :
  loop_end tools graph vk res -> log (finish repr_str graph res).1 = log (lv_run vk).
Proof.
  destruct 1 as [v Hc|v run env exc Hc Hb].
  - apply after_loop_fields.
  - apply loop_body_Raised in Hb as [Hl _]. exact Hl.
Qed.

Lemma finish_r_id tools graph vk res :
  loop_end tools graph vk res -> r_id (finish repr_str graph res).1 = r_id (lv_run vk).
Proof.
  destruct 1 as [v Hc|v run env exc Hc Hb].
  - apply after_loop_fields.
  - apply loop_body_Raised in Hb as (_ & Hr & _). exact Hr.
Qed.

(** ** Errors of [run_graph] *)


(** ** The log *)

Lemma fmap_seq_lookup (l : list StepLog) :
  (forall i entry, l !! i = Some entry -> step_index entry = Z.of_nat i) ->
  map step_index l = map Z.of_nat (seq 0 (length l)).
Proof.
  intros H. change (step_index <$> l = Z.of_nat <$> seq 0 (length l)).
  apply list_eq. intros i. rewrite !list_lookup_fmap.
  destruct (l !! i) as [e|] eqn:He.
  - rewrite lookup_seq_lt by (eapply lookup_lt_Some; eauto).
    cbn. f_equal. auto.
  - rewrite lookup_seq_ge by (by apply lookup_ge_None). reflexivity.
Qed.

(** C6: the run that [run_graph] returns, completed or failed, went through
    some number [k] of complete iterations before the loop ended; its log has
    exactly [k] entries, [k] is at most the step budget (at most 0 when the
    budget is negative), and the [step_index] values of the entries are
    0, 1, ..., k - 1 in the order of the log. *)
Theorem log_counts_executed_steps self env uuid4 graph_id initial_state graph self' env' run :
  graphs self !! graph_id = Some graph ->
  run_graph repr_str self env uuid4 graph_id initial_state = Some (self', env', inr run) ->
  exists k vk res,
    iterates (tool_registry self) graph k
      (init_vars (init_run uuid4 graph_id graph initial_state) graph env) vk /\
    loop_end (tool_registry self) graph vk res /\
    length (log run) = k /\
    Z.of_nat (length (log run)) <= Z.max 0 (max_steps graph) /\
    map step_index (log run) = map Z.of_nat (seq 0 k).
Proof.
  intros Hg Hrun.
  destruct (run_graph_known self env uuid4 graph_id initial_state graph Hg)
    as (k & vk & res & Hit & Hend & Hrun').
  rewrite Hrun' in Hrun. injection Hrun as _ _ <-.
  exists k, vk, res. split; [exact Hit|]. split; [exact Hend|].
  rewrite (finish_log _ _ _ _ Hend).
  destruct (iterates_log _ _ _ _ _ Hit) as (entries & Hlog & Hlen & Hrec).
  cbn in Hlog. rewrite <- Hlog in Hlen, Hrec. clear Hlog. rename Hlen into Hk.
  split; [exact Hk|]. split.
  - rewrite Hk. pose proof (iterates_step_index _ _ _ _ _ Hit) as Hs. cbn in Hs.
    destruct (iterates_budget _ _ _ _ _ Hit) as [->|Hb]; lia.
  - rewrite <- Hk. apply fmap_seq_lookup. intros i e He.
    destruct (Hrec i e He) as (vi & Hvi & _ & node & tool & _ & _ & _ & Hsi & _).
    rewrite Hsi. apply iterates_step_index in Hvi. cbn in Hvi. lia.
Qed.

(** ** Tool failures *)



(** ** Branching *)

Lemma loop_body_returns tools graph v node tool new_state next_node_id :
  dict_getitem (nodes graph) (lv_current_node_id v) = inr node ->
  ToolRegistry_get tools (tool_name node) = inr tool ->
  check_returned node (tool (lv_env v) (state (lv_run v))) = inr new_state ->
  next_of graph (lv_current_node_id v) new_state = inr next_node_id ->
  loop_body tools graph v =
    Next (mkLoopVars
            (set_state (delete NEXT_NODE new_state)
               (log_append (mkStepLog (lv_step_index v) (lv_current_node_id v) new_state)
                  (set_state new_state
                     (set_state (arg_after (tool (lv_env v) (state (lv_run v))))
                        (set_current_node (lv_current_node_id v) (lv_run v))))))
            (lv_step_index v + 1) next_node_id
            (env_after (tool (lv_env v) (state (lv_run v))))).
Proof.
  intros Hn Ht Hr Hx. unfold loop_body. rewrite Hn, Ht.
  cbn [state set_current_node set_state log_append]. rewrite Hr.
  fold (next_of graph (lv_current_node_id v) new_state). rewrite Hx. reflexivity.
Qed.

(** C1 (amended): at a step whose tool returns a state that carries the
    reserved key, the key is removed from the run's state; a value that is
    not [None] becomes the next node whatever the static edge says, but with
    the value [None] the next node is the one the static edge map gives for
    the current node.  So after a null override the run goes on along the
    static edge when there is one (and the budget is not used up), and ends
    at that step only when the edge map has no next node for the current
    node. *)
Theorem null_override_follows_static_edge tools graph v node tool new_state override :
  dict_getitem (nodes graph) (lv_current_node_id v) = inr node ->
  ToolRegistry_get tools (tool_name node) = inr tool ->
  check_returned node (tool (lv_env v) (state (lv_run v))) = inr new_state ->
  new_state !! NEXT_NODE = Some override ->
  exists v' s,
    loop_body tools graph v = Next v' /\
    lv_current_node_id v = VStr s /\
    state (lv_run v') !! NEXT_NODE = None /\
    lv_current_node_id v' =
      (if is_None override then default VNone (edges graph !! s) else override) /\
    (override = VNone ->
     loop_cond graph v' =
       negb (is_None (default VNone (edges graph !! s)))
       && (lv_step_index v + 1 <? max_steps graph)).
Proof.
  intros Hn Ht Hr Ho.
  destruct (dict_getitem_inr _ _ _ Hn) as (s & Hs & _).
  assert (Hx : next_of graph (lv_current_node_id v) new_state =
               inr (if is_None override then default VNone (edges graph !! s) else override)).
  { unfold next_of. rewrite Ho, Hs. cbn [default]. destruct override; reflexivity. }
  eexists _, s. split; [exact (loop_body_returns _ _ _ _ _ _ _ Hn Ht Hr Hx)|].
  cbn. split; [exact Hs|]. split; [apply lookup_delete_eq|]. split; [reflexivity|].
  intros ->. reflexivity.
Qed.

(** C8: a graph with the single node [a] whose tool always returns a state
    with the reserved key set to [a] runs for exactly [max_steps] steps, one
    log entry each, and ends with status [failed] and the loop-guard
    message. *)
Theorem self_loop_exhausts_budget
    self env uuid4 graph_id initial_state graph a node tool :
  graphs self !! graph_id = Some graph ->
  start_node graph = a ->
  nodes graph = {[ a := node ]} ->
  ToolRegistry_get (tool_registry self) (tool_name node) = inr tool ->
  (forall w st, exists new_state,
      check_returned node (tool w st) = inr new_state /\
      new_state !! NEXT_NODE = Some (VStr a)) ->
  exists self' env' run,
    run_graph repr_str self env uuid4 graph_id initial_state = Some (self', env', inr run) /\
    status run = failed /\
    error run = Some MAX_STEPS_EXCEEDED /\
    length (log run) = Z.to_nat (max_steps graph) /\
    (0 <= max_steps graph -> Z.of_nat (length (log run)) = max_steps graph).
Proof.
  intros Hg Hstart Hnodes Ht Htool.
  assert (Hloop : forall j v,
    lv_current_node_id v = VStr a ->
    (j <> O -> lv_step_index v + Z.of_nat j <= max_steps graph) ->
    exists vj, iterates (tool_registry self) graph j v vj /\
               lv_current_node_id vj = VStr a).
  { induction j as [|j IH]; intros v Hcur Hle.
    - exists v. split; [constructor|exact Hcur].
    - specialize (Hle (Nat.neq_succ_0 j)).
      assert (Hn : dict_getitem (nodes graph) (lv_current_node_id v) = inr node).
      { rewrite Hcur, Hnodes. unfold dict_getitem, dict_lookup. cbn.
        rewrite lookup_singleton_eq. reflexivity. }
      destruct (Htool (lv_env v) (state (lv_run v))) as (st & Hr & Hst).
      assert (Hx : next_of graph (lv_current_node_id v) st = inr (VStr a)).
      { unfold next_of. rewrite Hst. reflexivity. }
      pose proof (loop_body_returns _ _ _ _ _ _ _ Hn Ht Hr Hx) as Hb.
      match type of Hb with _ = Next ?x => set (v1 := x) in Hb end.
      destruct (IH v1) as (vj & Hit & Hvj); [reflexivity|cbn; lia|].
      exists vj. split; [|exact Hvj].
      econstructor; [|exact Hb|exact Hit].
      unfold loop_cond. rewrite Hcur. cbn. apply Z.ltb_lt. lia. }
  set (run0 := init_run uuid4 graph_id graph initial_state).
  destruct (Hloop (Z.to_nat (max_steps graph)) (init_vars run0 graph env))
    as (vk & Hit & Hvk).
  { cbn. rewrite Hstart. reflexivity. }
  { cbn. lia. }
  pose proof (iterates_step_index _ _ _ _ _ Hit) as Hs. cbn in Hs.
  assert (Hc : loop_cond graph vk = false).
  { unfold loop_cond. apply andb_false_iff. right. apply Z.ltb_ge. lia. }
  unfold run_graph. rewrite Hg. cbn [tool_registry set_runs runs graphs]. fold run0.
  rewrite <- (Nat.add_0_r (Z.to_nat (max_steps graph))).
  rewrite (while_loop_iterates _ _ _ _ _ _ Hit), (while_loop_exit _ _ _ _ Hc).
  cbn [finish]. unfold after_loop.
  assert (Hge : (max_steps graph <=? lv_step_index vk) = true) by (apply Z.leb_le; lia).
  rewrite Hge. eexists _, _, _. split; [reflexivity|]. cbn.
  destruct (iterates_log _ _ _ _ _ Hit) as (entries & Hlog & Hlen & _).
  cbn in Hlog. rewrite Hlog, Hlen, Nat.add_0_r. repeat split; auto. lia.
Qed.

(** ** Snapshots and the reserved key *)

Lemma iterates_last_snapshot tools graph k v vk :
  iterates tools graph k v vk ->
  k <> O ->
  exists entry,
    last (log (lv_run vk)) = Some entry /\
    state (lv_run vk) = delete NEXT_NODE (state_snapshot entry).
Proof.
  induction 1 as [|k v v1 v2 Hc Hb Hit IH]; [congruence|]. intros _.
  destruct k as [|k]; [|apply IH; congruence].
  inversion Hit; subst.
  destruct (loop_body_Next _ _ _ _ Hb)
    as (node & tool & st & _ & _ & _ & _ & Hl & Hst & _).
  eexists. rewrite Hl, last_snoc. split; [reflexivity|exact Hst].
Qed.

(** C3 (amended): every entry of the log of the run that [run_graph] returns
    records one step, and its snapshot is the dict the tool of that step
    returned, copied before the engine removes the reserved key: the
    snapshot holds the key whenever the returned dict does.  The key is
    removed right after the snapshot, so unless the run ended with a failing
    tool call its state is the last snapshot without the reserved key; in
    particular the state of a completed run never holds the key. *)
Theorem snapshot_precedes_key_removal
    self env uuid4 graph_id initial_state graph self' env' run :
  graphs self !! graph_id = Some graph ->
  run_graph repr_str self env uuid4 graph_id initial_state = Some (self', env', inr run) ->
  let v0 := init_vars (init_run uuid4 graph_id graph initial_state) graph env in
  (forall i entry, log run !! i = Some entry ->
     exists vi, iterates (tool_registry self) graph i v0 vi /\
                records_step (tool_registry self) graph vi entry) /\
  (forall entry, last (log run) = Some entry ->
     state run = delete NEXT_NODE (state_snapshot entry) \/
     exists vk node tool exc,
       iterates (tool_registry self) graph (length (log run)) v0 vk /\
       dict_getitem (nodes graph) (lv_current_node_id vk) = inr node /\
       ToolRegistry_get (tool_registry self) (tool_name node) = inr tool /\
       check_returned node (tool (lv_env vk) (state (lv_run vk))) = inl exc /\
       state run = arg_after (tool (lv_env vk) (state (lv_run vk)))) /\
  (status run = completed ->
     state run !! NEXT_NODE = None /\
     exists entry, last (log run) = Some entry /\
                   state run = delete NEXT_NODE (state_snapshot entry)).
Proof.
  intros Hg Hrun v0.
  destruct (run_graph_known self env uuid4 graph_id initial_state graph Hg)
    as (k & vk & res & Hit & Hend & Hrun').
  fold v0 in Hit. rewrite Hrun' in Hrun. injection Hrun as _ _ <-.
  destruct (iterates_log _ _ _ _ _ Hit) as (entries & Hlog & Hlen & Hrec).
  cbn in Hlog. rewrite <- Hlog in Hlen, Hrec. clear Hlog entries.
  pose proof (finish_log _ _ _ _ Hend) as Hflog.
  split; [|split].
  - rewrite Hflog. exact Hrec.
  - rewrite Hflog. intros entry Hlast.
    assert (Hk : k <> O).
    { intros ->. destruct (log (lv_run vk)); [discriminate|]. discriminate. }
    destruct (iterates_last_snapshot _ _ _ _ _ Hit Hk) as (e & He & Hst).
    rewrite Hlast in He. injection He as <-.
    destruct Hend as [v Hc|v run env0 exc Hc Hb].
    + left. rewrite finish_Next. cbn [fst].
      destruct (after_loop_fields graph v) as (_ & -> & _). exact Hst.
    + rewrite finish_Raised. cbn.
      destruct (loop_body_Raised _ _ _ _ _ _ Hb) as (_ & _ & _ & [(Hs & _)|Hfail]).
      * left. rewrite Hs. exact Hst.
      * right. destruct Hfail as (node & tool & Hn & Ht & Hr & Hs & _).
        exists v, node, tool, exc. rewrite Hlen. auto.
  - destruct Hend as [v Hc|v run env0 exc Hc Hb].
    2: { rewrite finish_Raised. cbn. discriminate. }
    rewrite finish_Next in *. cbn [fst] in *. unfold after_loop in *.
    destruct (max_steps graph <=? lv_step_index v) eqn:Hm; cbn; [discriminate|].
    intros _.
    assert (Hk : k <> O).
    { intros ->. inversion Hit; subst. unfold loop_cond in Hc.
      cbn in Hc. apply Z.leb_gt in Hm. cbn in Hm.
      apply Z.ltb_ge in Hc. lia. }
    destruct (iterates_last_snapshot _ _ _ _ _ Hit Hk) as (e & He & Hst).
    split; [rewrite Hst; apply lookup_delete_eq|]. eauto.
Qed.

(** ** Graph construction *)

Lemma node_of_config_inr tools node_id cfg node :
  node_of_config tools node_id cfg = inr node ->
  n_id node = node_id /\
  exists t fn, tool_name node = VStr t /\ tools !! t = Some fn /\
               cfg !! "tool_name" = Some (VStr t).
Proof.
  unfold node_of_config.
  destruct (negb _); [discriminate|].
  destruct (ToolRegistry_get _ _) as [?|fn] eqn:Ht; [discriminate|].
  intros [= <-]. split; [reflexivity|].
  destruct (ToolRegistry_get_inr _ _ _ Ht) as (t & Hname & Hfn).
  exists t, fn. cbn. repeat split; auto.
  destruct (cfg !! "tool_name") as [x|]; cbn in Hname; [congruence|discriminate].
Qed.


Lemma build_nodes_inr tools items acc nodes :
  build_nodes tools items acc = inr nodes ->
  Forall (fun item => exists node, node_of_config tools item.1 item.2 = inr node) items /\
  forall node_id node, nodes !! node_id = Some node ->
    acc !! node_id = Some node \/
    exists cfg, (node_id, cfg) ∈ items /\ node_of_config tools node_id cfg = inr node.
Proof.
  revert acc. induction items as [|[i c] items IH]; intros acc; cbn.
  - intros [= <-]. split; [constructor|]. auto.
  - destruct (node_of_config tools i c) as [?|node] eqn:Hn; [discriminate|].
    intros H. destruct (IH _ H) as [Hall Hin]. split.
    + constructor; [cbn; eauto|exact Hall].
    + intros j nj Hj. destruct (Hin j nj Hj) as [Hacc|(cfg & Hcfg & Hok)].
      * destruct (decide (i = j)) as [->|Hne].
        -- rewrite lookup_insert_eq in Hacc. injection Hacc as <-.
           right. exists c. split; [left|exact Hn].
        -- rewrite lookup_insert_ne in Hacc by exact Hne. auto.
      * right. exists cfg. split; [right; exact Hcfg|exact Hok].
Qed.


(** C9: [create_graph] either raises and leaves the engine as it was, or
    returns a graph after storing it under its id, which it does only when
    [start_node] is a key of [nodes_config] and every node config passed
    validation.  So whenever a check fails (no such start node, a node
    without tool name, a node with an unregistered tool) the call raises and
    the engine's graphs are unchanged. *)
Theorem create_graph_atomic self uuid4 name nodes_config edges start_node max_steps :
  let valid :=
    start_node ∈ nodes_config.*1 /\
    Forall (fun item => exists node,
              node_of_config (tool_registry self) item.1 item.2 = inr node)
           nodes_config in
  match create_graph self uuid4 name nodes_config edges start_node max_steps with
  | (self', inl exc) => self' = self /\ ~ valid
  | (self', inr graph) =>
      valid /\
      graphs self' = <[uuid4 := graph]> (graphs self) /\
      runs self' = runs self /\
      tool_registry self' = tool_registry self
  end.
Proof.
  intros valid. unfold create_graph.
  destruct (bool_decide_reflect (start_node ∈ nodes_config.*1)) as [Hin|Hnot]; cbn [negb].
  2: { split; [reflexivity|]. intros [? _]. contradiction. }
  destruct (build_nodes _ _ _) as [exc|ns] eqn:Hb.
  - split; [reflexivity|]. intros [_ Hall].
    clear Hin valid. revert Hb. generalize (∅ : gmap string Node).
    induction Hall as [|[i c] items [node Hnode] _ IH]; intros acc; cbn; [discriminate|].
    cbn in Hnode. rewrite Hnode. apply IH.
  - destruct (build_nodes_inr _ _ _ _ Hb) as [Hall _].
    cbn. repeat split; auto.
Qed.

(** ** The run store *)

Lemma run_graph_inr self env uuid4 graph_id initial_state self' env' run :
  run_graph repr_str self env uuid4 graph_id initial_state = Some (self', env', inr run) ->
  exists graph,
    graphs self !! graph_id = Some graph /\
    r_id run = uuid4 /\
    tool_registry self' = tool_registry self /\
    graphs self' = graphs self /\
    runs self' =
      <[uuid4 := run]> (<[uuid4 := init_run uuid4 graph_id graph initial_state]> (runs self)).
Proof.
  intros Hrun. destruct (graphs self !! graph_id) as [graph|] eqn:Hg.
  2: { rewrite run_graph_unknown in Hrun by exact Hg. discriminate. }
  destruct (run_graph_known self env uuid4 graph_id initial_state graph Hg)
    as (k & vk & res & Hit & Hend & Hrun').
  rewrite Hrun' in Hrun. injection Hrun as <- _ <-.
  exists graph. cbn. repeat split; auto.
  rewrite (finish_r_id _ _ _ _ Hend).
  destruct (iterates_run_fields _ _ _ _ _ Hit) as (-> & _). reflexivity.
Qed.

Lemma run_graph_inl self env uuid4 graph_id initial_state self' env' exc :
  run_graph repr_str self env uuid4 graph_id initial_state = Some (self', env', inl exc) ->
  self' = self.
Proof.
  intros Hrun. destruct (graphs self !! graph_id) as [graph|] eqn:Hg.
  - destruct (run_graph_known self env uuid4 graph_id initial_state graph Hg)
      as (k & vk & res & _ & _ & Hrun').
    rewrite Hrun' in Hrun. discriminate.
  - rewrite run_graph_unknown in Hrun by exact Hg. congruence.
Qed.

Lemma create_graph_runs self uuid4 name nodes_config edges start_node max_steps :
  runs (create_graph self uuid4 name nodes_config edges start_node max_steps).1 = runs self.
Proof.
  unfold create_graph. destruct (negb _); [reflexivity|].
  destruct (build_nodes _ _ _); reflexivity.
Qed.

(** The stored runs are the runs that were created. *)
Lemma history_runs self ids :
  history repr_str self ids ->
  forall run_id, is_Some (runs self !! run_id) <-> run_id ∈ ids.
Proof.
  induction 1 as [tools|self ids name fn _ IH
                 |self ids uuid4 name nodes_config edges start_node max_steps _ IH
                 |self ids env uuid4 graph_id initial_state self' env' res _ IH Hrun];
    intros run_id.
  - cbn. rewrite lookup_empty, elem_of_nil. split; [intros [? ?]; discriminate|tauto].
  - cbn. apply IH.
  - rewrite create_graph_runs. apply IH.
  - destruct res as [exc|run].
    + apply run_graph_inl in Hrun as ->. apply IH.
    + apply run_graph_inr in Hrun as (graph & _ & -> & _ & _ & ->).
      rewrite elem_of_cons, <- IH.
      destruct (decide (uuid4 = run_id)) as [->|Hne].
      * rewrite lookup_insert_eq. split; eauto.
      * rewrite !lookup_insert_ne by exact Hne. split; [auto|]. intros [?|?]; congruence.
Qed.

(** C10: the run that [run_graph] returns is the one stored under its id, so
    [get_run] with that id returns it; no operation removes a run, so every
    run stored before the call is still stored after it, and on an engine
    with any history [get_run] raises exactly for the ids under which no
    run was created. *)
Theorem returned_run_is_stored self ids env uuid4 graph_id initial_state self' env' run :
  history repr_str self ids ->
  run_graph repr_str self env uuid4 graph_id initial_state = Some (self', env', inr run) ->
  get_run self' (r_id run) = inr run /\
  (forall run_id, is_Some (runs self !! run_id) -> is_Some (runs self' !! run_id)) /\
  (forall run_id,
     get_run self' run_id = inl (KeyError (VStr ("Run '" +:+ run_id +:+ "' not found")))
     <-> run_id ∉ r_id run :: ids) /\
  (forall run_id other, get_run self' run_id = inr other -> run_id ∈ r_id run :: ids).
Proof.
  intros Hh Hrun.
  pose proof (history_run_graph _ _ _ _ _ _ _ _ _ _ _ Hh Hrun) as Hh'. cbn in Hh'.
  pose proof (history_runs _ _ Hh') as Hruns.
  destruct (run_graph_inr _ _ _ _ _ _ _ _ Hrun) as (graph & _ & Hid & _ & _ & Hr).
  split; [|split; [|split]].
  - unfold get_run. rewrite Hid, Hr, lookup_insert_eq. reflexivity.
  - intros run_id Hsome. rewrite Hr.
    destruct (decide (uuid4 = run_id)) as [->|Hne].
    + rewrite lookup_insert_eq. eauto.
    + rewrite !lookup_insert_ne by exact Hne. exact Hsome.
  - intros run_id. rewrite <- Hruns. unfold get_run.
    destruct (runs self' !! run_id) as [x|]; split.
    + discriminate.
    + intros Hn. exfalso. apply Hn. eauto.
    + intros _ [? ?]. discriminate.
    + reflexivity.
  - intros run_id other. rewrite <- Hruns. unfold get_run.
    destruct (runs self' !! run_id) as [x|]; [eauto|discriminate].
Qed.

End Properties.

(** * The properties on concrete runs *)

Import Examples.

(** C2: a graph with one node, no edge and a budget of one step.  The only
    step runs, is logged and yields no next node, so the loop ends because
    there is no next node; the step counter equals the budget at that
    point, and the run is reported as [failed] with the loop-guard message
    and keeps its [current_node]. *)
Theorem natural_end_at_budget_is_reported_failed :
  graphs engine_single !! "g-single" = Some single_graph /\
  max_steps single_graph = 1 /\
  (exists v1,
     iterates tools single_graph 1
       (init_vars (init_run "run-1" "g-single" single_graph ∅) single_graph tt) v1 /\
     lv_current_node_id v1 = VNone /\
     lv_step_index v1 = 1) /\
  single_result = Some (engine_of single_result, tt, inr (run_of single_result)) /\
  status (run_of single_result) = failed /\
  error (run_of single_result) = Some MAX_STEPS_EXCEEDED /\
  current_node (run_of single_result) = VStr "a" /\
  map node_id (log (run_of single_result)) = [VStr "a"].
Proof.
  split; [vm_compute; reflexivity|]. split; [reflexivity|]. split.
  - eexists. split; [|split].
    + econstructor; [reflexivity|reflexivity|constructor].
    + reflexivity.
    + reflexivity.
  - repeat split; vm_compute; reflexivity.
Qed.

(** C1, as stated, fails on the chain a -> b: the tool of [a] returns a
    state with the reserved key set to [None] and the edge map sends [a] to
    [b]; the run does not end at that step, it goes on to [b]. *)
Lemma null_override_does_not_end_run :
  edges chain_graph !! "a" = Some (VStr "b") /\
  chain_result = Some (engine_of chain_result, tt, inr (run_of chain_result)) /\
  (exists entry,
     log (run_of chain_result) !! 0%nat = Some entry /\
     node_id entry = VStr "a" /\
     state_snapshot entry !! NEXT_NODE = Some VNone) /\
  map node_id (log (run_of chain_result)) = [VStr "a"; VStr "b"] /\
  ~ map node_id (log (run_of chain_result)) = [VStr "a"].
Proof.
  split; [vm_compute; reflexivity|]. split; [vm_compute; reflexivity|]. split.
  - eexists. split; [vm_compute; reflexivity|]. split; vm_compute; reflexivity.
  - split; [vm_compute; reflexivity|]. vm_compute. discriminate.
Qed.

(** C3, as stated, fails on the self-loop: every snapshot of the log holds
    the reserved key, as the tool set it. *)
Lemma snapshot_holds_reserved_key :
  loop_result = Some (engine_of loop_result, tt, inr (run_of loop_result)) /\
  map (fun entry => state_snapshot entry !! NEXT_NODE) (log (run_of loop_result)) =
    [Some (VStr "a"); Some (VStr "a"); Some (VStr "a")] /\
  ~ Forall (fun entry => state_snapshot entry !! NEXT_NODE = None)
      (log (run_of loop_result)).
Proof.
  split; [vm_compute; reflexivity|]. split; [vm_compute; reflexivity|].
  intros H. apply Forall_lookup_1 with (i := 0%nat)
    (x := mkStepLog 0 (VStr "a") {[ NEXT_NODE := VStr "a" ]}) in H.
  - vm_compute in H. discriminate.
  - vm_compute. reflexivity.
Qed.



(** ** The theorems at concrete inputs *)

(** The first step of the chain a -> b: a null override followed by the
    static edge to [b]. *)
Lemma null_override_follows_static_edge_witness :
  let v := init_vars (init_run "run-1" "g-chain" chain_graph ∅) chain_graph tt in
  let node := mkNode "a" (VStr "stop") in
  let new_state : State := <[NEXT_NODE := VNone]> ∅ in
  dict_getitem (nodes chain_graph) (lv_current_node_id v) = inr node /\
  ToolRegistry_get tools (tool_name node) = inr stop_tool /\
  check_returned node (stop_tool (lv_env v) (state (lv_run v))) = inr new_state /\
  new_state !! NEXT_NODE = Some VNone /\
  exists v' s,
    loop_body tools chain_graph v = Next v' /\
    lv_current_node_id v = VStr s /\
    state (lv_run v') !! NEXT_NODE = None /\
    lv_current_node_id v' =
      (if is_None VNone then default VNone (edges chain_graph !! s) else VNone) /\
    (VNone = VNone ->
     loop_cond chain_graph v' =
       negb (is_None (default VNone (edges chain_graph !! s)))
       && (lv_step_index v + 1 <? max_steps chain_graph)).
Proof.
  intros v node new_state.
  assert (H1 : dict_getitem (nodes chain_graph) (lv_current_node_id v) = inr node)
    by (vm_compute; reflexivity).
  assert (H2 : ToolRegistry_get tools (tool_name node) = inr stop_tool)
    by (vm_compute; reflexivity).
  assert (H3 : check_returned node (stop_tool (lv_env v) (state (lv_run v))) = inr new_state)
    by reflexivity.
  assert (H4 : new_state !! NEXT_NODE = Some VNone) by (vm_compute; reflexivity).
  repeat (split; [assumption|]).
  exact (null_override_follows_static_edge tools chain_graph v node stop_tool
           new_state VNone H1 H2 H3 H4).
Defined.

Lemma snapshot_precedes_key_removal_witness :
  graphs engine_chain !! "g-chain" = Some chain_graph /\
  chain_result = Some (engine_of chain_result, tt, inr (run_of chain_result)) /\
  (status (run_of chain_result) = completed ->
   state (run_of chain_result) !! NEXT_NODE = None /\
   exists entry, last (log (run_of chain_result)) = Some entry /\
                 state (run_of chain_result) = delete NEXT_NODE (state_snapshot entry)).
Proof.
  assert (H1 : graphs engine_chain !! "g-chain" = Some chain_graph)
    by (vm_compute; reflexivity).
  assert (H2 : run_graph repr_plain engine_chain tt "run-1" "g-chain" ∅ =
               Some (engine_of chain_result, tt, inr (run_of chain_result)))
    by (vm_compute; reflexivity).
  split; [exact H1|]. split; [exact H2|].
  exact (proj2 (proj2 (snapshot_precedes_key_removal repr_plain engine_chain tt "run-1"
                         "g-chain" ∅ chain_graph _ _ _ H1 H2))).
Defined.


Lemma log_counts_executed_steps_witness :
  graphs engine_loop !! "g-loop" = Some loop_graph /\
  loop_result = Some (engine_of loop_result, tt, inr (run_of loop_result)) /\
  exists k vk res,
    iterates (tool_registry engine_loop) loop_graph k
      (init_vars (init_run "run-1" "g-loop" loop_graph ∅) loop_graph tt) vk /\
    loop_end (tool_registry engine_loop) loop_graph vk res /\
    length (log (run_of loop_result)) = k /\
    Z.of_nat (length (log (run_of loop_result))) <= Z.max 0 (max_steps loop_graph) /\
    map step_index (log (run_of loop_result)) = map Z.of_nat (seq 0 k).
Proof.
  assert (H1 : graphs engine_loop !! "g-loop" = Some loop_graph)
    by (vm_compute; reflexivity).
  assert (H2 : run_graph repr_plain engine_loop tt "run-1" "g-loop" ∅ =
               Some (engine_of loop_result, tt, inr (run_of loop_result)))
    by (vm_compute; reflexivity).
  split; [exact H1|]. split; [exact H2|].
  exact (log_counts_executed_steps repr_plain engine_loop tt "run-1" "g-loop" ∅
           loop_graph _ _ _ H1 H2).
Defined.


Lemma self_loop_exhausts_budget_witness :
  let node := mkNode "a" (VStr "again") in
  graphs engine_loop !! "g-loop" = Some loop_graph /\
  start_node loop_graph = "a" /\
  nodes loop_graph = {[ "a" := node ]} /\
  ToolRegistry_get (tool_registry engine_loop) (tool_name node) = inr (goto_tool "a") /\
  (forall w st, exists new_state,
      check_returned node (goto_tool "a" w st) = inr new_state /\
      new_state !! NEXT_NODE = Some (VStr "a")) /\
  exists self' env' run,
    run_graph repr_plain engine_loop tt "run-1" "g-loop" ∅ = Some (self', env', inr run) /\
    status run = failed /\
    error run = Some MAX_STEPS_EXCEEDED /\
    length (log run) = Z.to_nat (max_steps loop_graph) /\
    (0 <= max_steps loop_graph -> Z.of_nat (length (log run)) = max_steps loop_graph).
Proof.
  intros node.
  assert (H1 : graphs engine_loop !! "g-loop" = Some loop_graph)
    by (vm_compute; reflexivity).
  assert (H2 : start_node loop_graph = "a") by reflexivity.
  assert (H3 : nodes loop_graph = {[ "a" := node ]}) by (vm_compute; reflexivity).
  assert (H4 : ToolRegistry_get (tool_registry engine_loop) (tool_name node) =
               inr (goto_tool "a")) by (vm_compute; reflexivity).
  assert (H5 : forall w st, exists new_state,
             check_returned node (goto_tool "a" w st) = inr new_state /\
             new_state !! NEXT_NODE = Some (VStr "a")).
  { intros w st. eexists. split; [reflexivity|]. apply lookup_insert_eq. }
  repeat (split; [assumption|]).
  exact (self_loop_exhausts_budget repr_plain engine_loop tt "run-1" "g-loop" ∅
           loop_graph "a" node (goto_tool "a") H1 H2 H3 H4 H5).
Defined.

Lemma returned_run_is_stored_witness :
  history repr_plain engine_chain [] /\
  chain_result = Some (engine_of chain_result, tt, inr (run_of chain_result)) /\
  get_run (engine_of chain_result) (r_id (run_of chain_result)) = inr (run_of chain_result) /\
  (forall run_id,
     is_Some (runs engine_chain !! run_id) ->
     is_Some (runs (engine_of chain_result) !! run_id)) /\
  (forall run_id,
     get_run (engine_of chain_result) run_id =
       inl (KeyError (VStr ("Run '" +:+ run_id +:+ "' not found")))
     <-> run_id ∉ r_id (run_of chain_result) :: []) /\
  (forall run_id other,
     get_run (engine_of chain_result) run_id = inr other ->
     run_id ∈ r_id (run_of chain_result) :: []).
Proof.
  assert (H1 : history repr_plain engine_chain []).
  { apply (history_create_graph unit repr_plain engine0 [] "g-chain" "chain"
             [("a", cfg "stop"); ("b", cfg "stop")]
             {[ "a" := VStr "b"; "b" := VNone ]} "a" 100).
    apply history_init. }
  assert (H2 : run_graph repr_plain engine_chain tt "run-1" "g-chain" ∅ =
               Some (engine_of chain_result, tt, inr (run_of chain_result)))
    by (vm_compute; reflexivity).
  split; [exact H1|]. split; [exact H2|].
  exact (returned_run_is_stored repr_plain engine_chain [] tt "run-1" "g-chain" ∅
           _ _ _ H1 H2).
Defined.

(** * Further properties of the engine *)

Section MoreProperties.

Context {W : Type} (repr_str : string -> string).

Implicit Types (tools : gmap string (ToolFn W)) (graph : Graph) (v : LoopVars W).
Implicit Types (self : GraphEngine W) (run : GraphRun) (exc : PyExc) (env : W).

(** ** The registry *)

(** [register] followed by [get] under the same name gives the callable back,
    a second registration under a name replaces the first, other keys are
    looked up as before, and a name that was never registered raises
    [KeyError]. *)
Theorem register_then_get tools name fn :
  ToolRegistry_get (ToolRegistry_register tools name fn) (VStr name) = inr fn /\
  (forall key, key <> VStr name ->
     ToolRegistry_get (ToolRegistry_register tools name fn) key =
     ToolRegistry_get tools key) /\
  (forall fn',
     ToolRegistry_register (ToolRegistry_register tools name fn') name fn =
     ToolRegistry_register tools name fn) /\
  (forall other,
     other <> name -> tools !! other = None ->
     ToolRegistry_get (ToolRegistry_register tools name fn) (VStr other) =
       inl (KeyError (VStr ("Tool '" +:+ other +:+ "' not registered")))).
Proof.
  unfold ToolRegistry_register, ToolRegistry_get, dict_lookup.
  split; [|split; [|split]].
  - cbn. rewrite lookup_insert_eq. reflexivity.
  - intros key Hkey. destruct (hash_error key); [reflexivity|].
    destruct key as [|s|o]; try reflexivity.
    rewrite lookup_insert_ne by congruence. reflexivity.
  - intros fn'. apply insert_insert_eq.
  - intros other Hne Hnone. cbn.
    rewrite lookup_insert_ne, Hnone by congruence. reflexivity.
Qed.

(** ** Graphs built by [create_graph] *)

Lemma node_of_config_value tools node_id cfg node :
  node_of_config tools node_id cfg = inr node ->
  node = mkNode node_id (default VNone (cfg !! "tool_name")).
Proof.
  unfold node_of_config. destruct (negb _); [discriminate|].
  destruct (ToolRegistry_get _ _); [discriminate|]. congruence.
Qed.

Lemma build_nodes_valid tools items acc :
  Forall (fun item => exists node, node_of_config tools item.1 item.2 = inr node) items ->
  exists ns, build_nodes tools items acc = inr ns.
Proof.
  intros Hall. revert acc.
  induction Hall as [|[i c] items [node Hnode] _ IH]; intros acc; cbn; [eauto|].
  cbn in Hnode. rewrite Hnode. apply IH.
Qed.

Lemma build_nodes_lookup tools items acc ns :
  NoDup items.*1 ->
  build_nodes tools items acc = inr ns ->
  (forall node_id cfg, (node_id, cfg) ∈ items ->
     ns !! node_id = Some (mkNode node_id (default VNone (cfg !! "tool_name")))) /\
  (forall node_id, node_id ∉ items.*1 -> ns !! node_id = acc !! node_id).
Proof.
  revert acc. induction items as [|[i c] items IH]; intros acc Hnd; cbn.
  - intros [= <-]. split; [|auto]. intros ? ? H. inversion H.
  - destruct (node_of_config tools i c) as [?|node] eqn:Hn; [discriminate|].
    apply node_of_config_value in Hn as ->.
    cbn in Hnd. apply NoDup_cons in Hnd as [Hi Hnd].
    intros H. destruct (IH _ Hnd H) as [Hin Hout]. split.
    + intros j cj Hj. apply elem_of_cons in Hj as [[= -> ->]|Hj]; [|eauto].
      rewrite (Hout _ Hi), lookup_insert_eq. reflexivity.
    + intros j Hj. cbn in Hj. apply not_elem_of_cons in Hj as [Hne Hj].
      rewrite (Hout _ Hj), lookup_insert_ne by congruence. reflexivity.
Qed.

Lemma build_nodes_is_Some tools items acc ns :
  build_nodes tools items acc = inr ns ->
  forall node_id,
    is_Some (acc !! node_id) \/ node_id ∈ items.*1 -> is_Some (ns !! node_id).
Proof.
  revert acc. induction items as [|[i c] items IH]; intros acc; cbn.
  - intros [= <-] j [Hj|Hj]; [exact Hj|inversion Hj].
  - destruct (node_of_config tools i c) as [?|node] eqn:Hn; [discriminate|].
    intros H j Hj. apply (IH _ H).
    destruct (decide (i = j)) as [->|Hne].
    + left. rewrite lookup_insert_eq. eauto.
    + destruct Hj as [Hj|Hj].
      * left. rewrite lookup_insert_ne by exact Hne. exact Hj.
      * right. apply elem_of_cons in Hj as [Hj|Hj]; [congruence|exact Hj].
Qed.

(** When [start_node] is a key of [nodes_config] and every node config names
    a registered tool, [create_graph] returns a graph with the id it drew and
    the name, edges, start node and budget it was given, whatever the edges
    and the budget are; the graph has exactly one node per key of
    [nodes_config], bound to the tool that key's config names, and it is
    stored under its id. *)
Theorem create_graph_builds_the_nodes
    self uuid4 name nodes_config edges start_node max_steps :
  NoDup nodes_config.*1 ->
  start_node ∈ nodes_config.*1 ->
  Forall (fun item => exists node,
            node_of_config (tool_registry self) item.1 item.2 = inr node) nodes_config ->
  exists ns,
    let graph := mkGraph uuid4 name ns edges start_node max_steps in
    create_graph self uuid4 name nodes_config edges start_node max_steps =
      (mkGraphEngine (tool_registry self) (<[uuid4 := graph]> (graphs self)) (runs self),
       inr graph) /\
    (forall node_id cfg, (node_id, cfg) ∈ nodes_config ->
       ns !! node_id = Some (mkNode node_id (default VNone (cfg !! "tool_name")))) /\
    (forall node_id, node_id ∉ nodes_config.*1 -> ns !! node_id = None).
Proof.
  intros Hnd Hin Hall.
  destruct (build_nodes_valid (tool_registry self) nodes_config ∅ Hall) as [ns Hns].
  exists ns. cbn zeta. unfold create_graph.
  rewrite bool_decide_eq_true_2 by exact Hin. cbn [negb]. rewrite Hns.
  split; [reflexivity|].
  destruct (build_nodes_lookup _ _ _ _ Hnd Hns) as [H1 H2].
  split; [exact H1|]. intros j Hj. rewrite (H2 _ Hj). apply lookup_empty.
Qed.

(** ** Engines with a history *)

Lemma create_graph_inr self uuid4 name nodes_config edges start_node max_steps self' graph :
  create_graph self uuid4 name nodes_config edges start_node max_steps = (self', inr graph) ->
  exists ns,
    build_nodes (tool_registry self) nodes_config ∅ = inr ns /\
    start_node ∈ nodes_config.*1 /\
    graph = mkGraph uuid4 name ns edges start_node max_steps /\
    self' = mkGraphEngine (tool_registry self) (<[uuid4 := graph]> (graphs self)) (runs self).
Proof.
  unfold create_graph.
  destruct (bool_decide_reflect (start_node ∈ nodes_config.*1)) as [Hin|Hnot]; cbn [negb];
    [|discriminate].
  destruct (build_nodes _ _ _) as [?|ns] eqn:Hb; [discriminate|].
  intros [= <- <-]. exists ns. auto.
Qed.

Lemma create_graph_inl self uuid4 name nodes_config edges start_node max_steps self' exc :
  create_graph self uuid4 name nodes_config edges start_node max_steps = (self', inl exc) ->
  self' = self.
Proof.
  unfold create_graph. destruct (negb _); [congruence|].
  destruct (build_nodes _ _ _); [congruence|discriminate].
Qed.

Lemma well_formed_graph_register tools graph_id graph name fn :
  well_formed_graph tools graph_id graph ->
  well_formed_graph (ToolRegistry_register tools name fn) graph_id graph.
Proof.
  intros (Hid & Hstart & Hnodes). repeat split; auto.
  - apply (Hnodes _ _ H).
  - destruct (Hnodes _ _ H) as (_ & t & fn0 & Ht & Hfn).
    unfold ToolRegistry_register.
    destruct (decide (name = t)) as [->|Hne].
    + exists t, fn. rewrite lookup_insert_eq. auto.
    + exists t, fn0. rewrite lookup_insert_ne by exact Hne. auto.
Qed.

Lemma create_graph_well_formed self uuid4 name nodes_config edges start_node max_steps
    self' graph :
  create_graph self uuid4 name nodes_config edges start_node max_steps = (self', inr graph) ->
  well_formed_graph (tool_registry self) uuid4 graph.
Proof.
  intros H. apply create_graph_inr in H as (ns & Hb & Hin & -> & _).
  split; [reflexivity|]. split.
  - cbn. apply (build_nodes_is_Some _ _ _ _ Hb). right. exact Hin.
  - cbn. intros j node Hj.
    destruct (build_nodes_inr _ _ _ _ Hb) as [_ Hsrc].
    destruct (Hsrc _ _ Hj) as [Hacc|(cfg & _ & Hok)].
    + rewrite lookup_empty in Hacc. discriminate.
    + destruct (node_of_config_inr _ _ _ _ Hok) as (Hid & t & fn & Ht & Hfn & _). eauto.
Qed.

Lemma history_well_formed self ids :
  history repr_str self ids ->
  forall graph_id graph,
    graphs self !! graph_id = Some graph ->
    well_formed_graph (tool_registry self) graph_id graph.
Proof.
  induction 1 as [tools|self ids name fn _ IH
                 |self ids uuid4 name nodes_config edges start_node max_steps _ IH
                 |self ids env uuid4 gid initial_state self' env' res _ IH Hrun];
    intros graph_id graph Hg.
  - cbn in Hg. rewrite lookup_empty in Hg. discriminate.
  - cbn in Hg |- *. apply well_formed_graph_register. eauto.
  - destruct (create_graph self uuid4 name nodes_config edges start_node max_steps)
      as [self' [exc|g]] eqn:Hc; cbn [fst] in *.
    + apply create_graph_inl in Hc as ->. eauto.
    + pose proof (create_graph_well_formed _ _ _ _ _ _ _ _ _ Hc) as Hnew.
      apply create_graph_inr in Hc as (ns & _ & _ & _ & ->). cbn in Hg |- *.
      destruct (decide (uuid4 = graph_id)) as [->|Hne].
      * rewrite lookup_insert_eq in Hg. injection Hg as <-. exact Hnew.
      * rewrite lookup_insert_ne in Hg by exact Hne. eauto.
  - destruct res as [exc|run].
    + apply run_graph_inl in Hrun as ->. eauto.
    + apply run_graph_inr in Hrun as (g & _ & _ & Ht & Hgs & _).
      rewrite Ht. rewrite Hgs in Hg. eauto.
Qed.

Lemma well_formed_start tools graph_id graph :
  well_formed_graph tools graph_id graph ->
  exists node, dict_getitem (nodes graph) (VStr (start_node graph)) = inr node.
Proof.
  intros (_ & [node Hstart] & _). exists node.
  unfold dict_getitem, dict_lookup. cbn. rewrite Hstart. reflexivity.
Qed.

Lemma well_formed_tool tools graph_id graph key node :
  well_formed_graph tools graph_id graph ->
  dict_getitem (nodes graph) key = inr node ->
  exists tool, ToolRegistry_get tools (tool_name node) = inr tool.
Proof.
  intros (_ & _ & Hnodes) Hk. apply dict_getitem_inr in Hk as (s & _ & Hs).
  destruct (Hnodes _ _ Hs) as (_ & t & fn & Ht & Hfn).
  exists fn. rewrite Ht. unfold ToolRegistry_get, dict_lookup. cbn.
  rewrite Hfn. reflexivity.
Qed.

(** On an engine that was set up through its operations (registrations,
    [create_graph] calls, [run_graph] calls) every stored graph is well
    formed with respect to the registry as it is now: it is stored under its
    own id, its start node is one of its nodes, and every node names a tool
    that is registered.  So in a run on such an engine the start node always
    resolves and the lookup of a node's tool never fails. *)
Theorem stored_graphs_are_well_formed self ids graph_id graph :
  history repr_str self ids ->
  graphs self !! graph_id = Some graph ->
  well_formed_graph (tool_registry self) graph_id graph /\
  (exists node, dict_getitem (nodes graph) (VStr (start_node graph)) = inr node) /\
  (forall key node, dict_getitem (nodes graph) key = inr node ->
     exists tool, ToolRegistry_get (tool_registry self) (tool_name node) = inr tool).
Proof.
  intros Hh Hg. pose proof (history_well_formed _ _ Hh _ _ Hg) as Hwf.
  split; [exact Hwf|]. split.
  - exact (well_formed_start _ _ _ Hwf).
  - intros key node. exact (well_formed_tool _ _ _ _ _ Hwf).
Qed.

(** ** Edge cases of [run_graph] *)

(** With a step budget of zero or less no tool is called: [run_graph]
    returns at once a run with status [failed] and the loop-guard message,
    an empty log, the initial state, and the start node as current node. *)
Theorem nonpositive_budget_runs_no_tool self env uuid4 graph_id initial_state graph :
  graphs self !! graph_id = Some graph ->
  max_steps graph <= 0 ->
  let run :=
    mkGraphRun uuid4 graph_id failed (VStr (start_node graph)) initial_state []
               (Some MAX_STEPS_EXCEEDED) in
  run_graph repr_str self env uuid4 graph_id initial_state =
    Some (mkGraphEngine (tool_registry self) (graphs self) (<[uuid4 := run]> (runs self)),
          env, inr run).
Proof.
  intros Hg Hmax run. unfold run_graph. rewrite Hg.
  cbn [tool_registry set_runs runs graphs].
  rewrite while_loop_exit.
  2: { unfold loop_cond. cbn. apply Z.ltb_ge. lia. }
  cbn [finish]. unfold after_loop. cbn [init_vars lv_step_index lv_run].
  assert (Hle : (max_steps graph <=? 0) = true) by (apply Z.leb_le; lia).
  rewrite Hle. cbn. rewrite insert_insert_eq. reflexivity.
Qed.

(** When the next node chosen at the end of a step (through the static edge
    or an override) is not a node of the graph, the failure shows only when
    that node is due: the run ends with status [failed], the log and the
    state are those of the steps before, [current_node] is the id that did
    not resolve, and for an id that is a string the error is its [repr]. *)
Theorem unresolved_node_fails_the_run
    self env uuid4 graph_id initial_state graph k v exc :
  graphs self !! graph_id = Some graph ->
  iterates (tool_registry self) graph k
    (init_vars (init_run uuid4 graph_id graph initial_state) graph env) v ->
  loop_cond graph v = true ->
  dict_getitem (nodes graph) (lv_current_node_id v) = inl exc ->
  exists self' run,
    run_graph repr_str self env uuid4 graph_id initial_state =
      Some (self', lv_env v, inr run) /\
    status run = failed /\
    error run = Some (str_exc repr_str exc) /\
    (forall s, lv_current_node_id v = VStr s -> error run = Some (repr_str s)) /\
    current_node run = lv_current_node_id v /\
    log run = log (lv_run v) /\
    length (log run) = k /\
    state run = state (lv_run v).
Proof.
  intros Hg Hit Hc Hn.
  assert (Hb : loop_body (tool_registry self) graph v =
               Raised (set_current_node (lv_current_node_id v) (lv_run v)) (lv_env v) exc).
  { unfold loop_body. rewrite Hn. reflexivity. }
  pose proof (iterates_step_index _ _ _ _ _ Hit) as Hs. cbn in Hs.
  assert (Hfuel : Z.to_nat (max_steps graph) = (k + S (Z.to_nat (max_steps graph) - S k))%nat).
  { unfold loop_cond in Hc. apply andb_prop in Hc as [_ Hlt].
    apply Z.ltb_lt in Hlt. lia. }
  unfold run_graph. rewrite Hg. cbn [tool_registry set_runs runs graphs].
  rewrite Hfuel, (while_loop_iterates _ _ _ _ _ _ Hit).
  cbn [while_loop]. rewrite Hc, Hb. cbn [finish on_exception].
  eexists _, _. split; [reflexivity|]. cbn.
  destruct (iterates_log _ _ _ _ _ Hit) as (entries & Hlog & Hlen & _).
  cbn in Hlog. rewrite Hlog. repeat split; auto.
  intros s Hs'. rewrite Hs' in Hn. unfold dict_getitem, dict_lookup in Hn. cbn in Hn.
  destruct (nodes graph !! s); [discriminate|]. injection Hn as <-. reflexivity.
Qed.

(** ** The log as a record of the run *)

(** The entries that [k] iterations append: the first one is the step taken
    from the loop variables at the start, each entry leads to the next one,
    and the last one leads to the loop variables at the end. *)
Lemma iterates_walk tools graph k v vk :
  iterates tools graph k v vk ->
  exists entries,
    log (lv_run vk) = log (lv_run v) ++ entries /\
    length entries = k /\
    (forall entry, entries !! 0%nat = Some entry ->
       node_id entry = lv_current_node_id v /\
       step_index entry = lv_step_index v /\
       exists node tool,
         dict_getitem (nodes graph) (lv_current_node_id v) = inr node /\
         ToolRegistry_get tools (tool_name node) = inr tool /\
         check_returned node (tool (lv_env v) (state (lv_run v))) =
           inr (state_snapshot entry)) /\
    (forall i entry entry',
       entries !! i = Some entry -> entries !! S i = Some entry' ->
       next_of graph (node_id entry) (state_snapshot entry) = inr (node_id entry') /\
       exists w node tool,
         dict_getitem (nodes graph) (node_id entry') = inr node /\
         ToolRegistry_get tools (tool_name node) = inr tool /\
         check_returned node (tool w (delete NEXT_NODE (state_snapshot entry))) =
           inr (state_snapshot entry')) /\
    (forall entry, last entries = Some entry ->
       next_of graph (node_id entry) (state_snapshot entry) = inr (lv_current_node_id vk) /\
       state (lv_run vk) = delete NEXT_NODE (state_snapshot entry) /\
       current_node (lv_run vk) = node_id entry /\
       lv_step_index vk = step_index entry + 1).
Proof.
  induction 1 as [v|k v v1 v2 Hc Hb Hit IH].
  - exists []. rewrite app_nil_r. repeat split; try discriminate; auto.
  - destruct IH as (entries & Hlog & Hlen & Hfirst & Hlink & Hlast).
    destruct (loop_body_Next _ _ _ _ Hb)
      as (node & tool & st & Hn & Ht & Hr & Hx & Hl & Hst & Hs & He & Hcur & _).
    exists (mkStepLog (lv_step_index v) (lv_current_node_id v) st :: entries).
    split; [rewrite Hlog, Hl, <- app_assoc; reflexivity|].
    split; [cbn; lia|]. split; [|split].
    + intros e [= <-]. cbn. repeat split; auto. exists node, tool. auto.
    + intros [|i] e e' He0 He1; cbn in He0, He1.
      * injection He0 as <-. cbn.
        destruct (Hfirst _ He1) as (Hid & _ & node' & tool' & Hn' & Ht' & Hr').
        rewrite Hid. split; [exact Hx|].
        exists (lv_env v1), node', tool'. rewrite <- Hst. auto.
      * eapply Hlink; eauto.
    + intros e Hlast'. destruct entries as [|e1 entries].
      * cbn in Hlast'. injection Hlast' as <-. cbn.
        cbn in Hlen. subst k. inversion Hit; subst. repeat split; auto.
      * apply Hlast. exact Hlast'.
Qed.

(** The two ways [run_graph] ends for a known graph. *)
Lemma run_graph_cases self env uuid4 graph_id initial_state graph self' env' run :
  graphs self !! graph_id = Some graph ->
  run_graph repr_str self env uuid4 graph_id initial_state = Some (self', env', inr run) ->
  exists k vk res,
    iterates (tool_registry self) graph k
      (init_vars (init_run uuid4 graph_id graph initial_state) graph env) vk /\
    loop_end (tool_registry self) graph vk res /\
    finish repr_str graph res = (run, env').
Proof.
  intros Hg Hrun.
  destruct (run_graph_known repr_str self env uuid4 graph_id initial_state graph Hg)
    as (k & vk & res & Hit & Hend & Hrun').
  rewrite Hrun' in Hrun. injection Hrun as _ <- <-.
  exists k, vk, res. repeat split; auto. destruct (finish _ _ _); reflexivity.
Qed.

(** The log of the run that [run_graph] returns is a walk through the
    graph that can be read off the log alone: the first entry is the start
    node, every entry names a node of the graph, and the node of each later
    entry is the next node the engine derives from the entry before it, the
    override in that entry's snapshot if it is not [None] and the static
    edge of that entry's node otherwise. *)
Theorem log_is_a_walk self env uuid4 graph_id initial_state graph self' env' run :
  graphs self !! graph_id = Some graph ->
  run_graph repr_str self env uuid4 graph_id initial_state = Some (self', env', inr run) ->
  (forall entry, log run !! 0%nat = Some entry ->
     node_id entry = VStr (start_node graph)) /\
  (forall i entry, log run !! i = Some entry ->
     exists s node, node_id entry = VStr s /\ nodes graph !! s = Some node) /\
  (forall i entry entry',
     log run !! i = Some entry -> log run !! S i = Some entry' ->
     next_of graph (node_id entry) (state_snapshot entry) = inr (node_id entry')).
Proof.
  intros Hg Hrun.
  destruct (run_graph_cases _ _ _ _ _ _ _ _ _ Hg Hrun) as (k & vk & res & Hit & Hend & Hf).
  pose proof (finish_log repr_str _ _ _ _ Hend) as Hlog. rewrite Hf in Hlog. cbn in Hlog.
  destruct (iterates_walk _ _ _ _ _ Hit) as (entries & Hl & _ & Hfirst & Hlink & _).
  cbn in Hl. rewrite Hlog, Hl. split; [|split].
  - intros e He. apply (Hfirst _ He).
  - intros i e He.
    destruct (iterates_log _ _ _ _ _ Hit) as (entries' & Hl' & _ & Hrec).
    cbn in Hl'. rewrite Hl in Hl'. subst entries'.
    destruct (Hrec _ _ He) as (vi & _ & _ & node & tool & Hn & _ & _ & _ & Hid).
    apply dict_getitem_inr in Hn as (s & Hs & Hnode).
    exists s, node. rewrite Hid. auto.
  - intros i e e' He He'. apply (Hlink _ _ _ He He').
Qed.


(** ** How a run ends *)

Lemma run_graph_exits_at self env uuid4 graph_id initial_state graph k vk :
  graphs self !! graph_id = Some graph ->
  let run0 := init_run uuid4 graph_id graph initial_state in
  iterates (tool_registry self) graph k (init_vars run0 graph env) vk ->
  loop_cond graph vk = false ->
  run_graph repr_str self env uuid4 graph_id initial_state =
    Some (mkGraphEngine (tool_registry self) (graphs self)
            (<[uuid4 := after_loop graph vk]> (<[uuid4 := run0]> (runs self))),
          lv_env vk, inr (after_loop graph vk)).
Proof.
  intros Hg run0 Hit Hc.
  pose proof (iterates_step_index _ _ _ _ _ Hit) as Hs. cbn in Hs.
  assert (Hfuel : Z.to_nat (max_steps graph) = (k + (Z.to_nat (max_steps graph) - k))%nat).
  { destruct (iterates_budget _ _ _ _ _ Hit) as [->|Hb]; lia. }
  unfold run_graph. rewrite Hg. cbn [tool_registry set_runs runs graphs]. fold run0.
  rewrite Hfuel, (while_loop_iterates _ _ _ _ _ _ Hit), (while_loop_exit _ _ _ _ Hc).
  reflexivity.
Qed.

Lemma loop_body_graph_id tools graph v :
  match loop_body tools graph v with
  | Next v' => graph_id (lv_run v') = graph_id (lv_run v)
  | Raised run _ _ => graph_id run = graph_id (lv_run v)
  end.
Proof.
  unfold loop_body.
  destruct (dict_getitem _ _); [reflexivity|].
  destruct (ToolRegistry_get _ _); [reflexivity|].
  cbn [state set_current_node set_state log_append].
  destruct (check_returned _ _); [reflexivity|].
  destruct (if negb _ then _ else _); reflexivity.
Qed.

Lemma iterates_graph_id tools graph k v vk :
  iterates tools graph k v vk -> graph_id (lv_run vk) = graph_id (lv_run v).
Proof.
  induction 1 as [|k v v1 v2 Hc Hb _ IH]; [reflexivity|].
  pose proof (loop_body_graph_id tools graph v) as H. rewrite Hb in H. congruence.
Qed.

Lemma run_graph_result_shape self env uuid4 gid initial_state graph self' env' run :
  graphs self !! gid = Some graph ->
  run_graph repr_str self env uuid4 gid initial_state = Some (self', env', inr run) ->
  r_id run = uuid4 /\
  graph_id run = gid /\
  status run <> running /\
  (status run = completed <-> error run = None).
Proof.
  intros Hg Hrun.
  destruct (run_graph_cases _ _ _ _ _ _ _ _ _ Hg Hrun) as (k & vk & res & Hit & Hend & Hf).
  destruct (iterates_run_fields _ _ _ _ _ Hit) as (Hid & _ & Herr).
  pose proof (iterates_graph_id _ _ _ _ _ Hit) as Hgid. cbn in Hid, Herr, Hgid.
  destruct Hend as [v Hc|v run' env0 exc Hc Hb].
  - rewrite finish_Next in Hf. injection Hf as <- _. unfold after_loop.
    destruct (max_steps graph <=? lv_step_index v); cbn.
    + repeat split; auto; discriminate.
    + rewrite Herr. repeat split; auto.
  - rewrite finish_Raised in Hf. injection Hf as <- _. cbn.
    destruct (loop_body_Raised _ _ _ _ _ _ Hb) as (_ & Hr & _).
    pose proof (loop_body_graph_id (tool_registry self) graph v) as Hgr.
    rewrite Hb in Hgr. repeat split; try congruence; discriminate.
Qed.

(** The run that [run_graph] returns is never [running], and it is
    [completed] exactly when no error is set.  A completed run has no
    current node, it took at least one step and fewer steps than the budget,
    and its last step yielded no next node. *)
Theorem completed_run_shape self env uuid4 graph_id initial_state graph self' env' run :
  graphs self !! graph_id = Some graph ->
  run_graph repr_str self env uuid4 graph_id initial_state = Some (self', env', inr run) ->
  status run <> running /\
  (status run = completed <-> error run = None) /\
  (status run = completed ->
     current_node run = VNone /\
     Z.of_nat (length (log run)) < max_steps graph /\
     exists entry,
       last (log run) = Some entry /\
       next_of graph (node_id entry) (state_snapshot entry) = inr VNone).
Proof.
  intros Hg Hrun.
  destruct (run_graph_result_shape _ _ _ _ _ _ _ _ _ Hg Hrun) as (_ & _ & Hnr & Hiff).
  split; [exact Hnr|]. split; [exact Hiff|].
  destruct (run_graph_cases _ _ _ _ _ _ _ _ _ Hg Hrun) as (k & vk & res & Hit & Hend & Hf).
  destruct Hend as [v Hc|v run' env0 exc Hc Hb].
  2: { rewrite finish_Raised in Hf. injection Hf as <- _. cbn. discriminate. }
  rewrite finish_Next in Hf. injection Hf as <- _. unfold after_loop.
  destruct (max_steps graph <=? lv_step_index v) eqn:Hm; cbn; [discriminate|].
  intros _. apply Z.leb_gt in Hm.
  assert (Hcur : lv_current_node_id v = VNone).
  { unfold loop_cond in Hc. apply andb_false_iff in Hc as [Hc|Hc].
    - destruct (lv_current_node_id v); cbn in Hc; congruence.
    - apply Z.ltb_ge in Hc. lia. }
  pose proof (iterates_step_index _ _ _ _ _ Hit) as Hs. cbn in Hs.
  destruct (iterates_walk _ _ _ _ _ Hit) as (entries & Hl & Hlen & _ & _ & Hlast).
  cbn in Hl. rewrite Hl, Hlen. split; [reflexivity|]. split; [lia|].
  destruct (last entries) as [e|] eqn:He.
  - exists e. split; [reflexivity|]. destruct (Hlast e eq_refl) as (Hx & _).
    rewrite Hx, Hcur. reflexivity.
  - apply last_None in He. rewrite He in Hlen. cbn in Hlen. subst k.
    inversion Hit; subst. discriminate.
Qed.

(** When the loop stops because the budget is used up, after [k] complete
    steps, the run is [failed] with the loop-guard message and its log holds
    all [k] entries; [current_node] is the node of the last step that ran
    (the start node if none ran), not the node that was due next. *)
Theorem budget_failure_keeps_last_node self env uuid4 graph_id initial_state graph k vk :
  graphs self !! graph_id = Some graph ->
  iterates (tool_registry self) graph k
    (init_vars (init_run uuid4 graph_id graph initial_state) graph env) vk ->
  max_steps graph <= lv_step_index vk ->
  exists self' run,
    run_graph repr_str self env uuid4 graph_id initial_state =
      Some (self', lv_env vk, inr run) /\
    status run = failed /\
    error run = Some MAX_STEPS_EXCEEDED /\
    length (log run) = k /\
    current_node run =
      match last (log run) with
      | Some entry => node_id entry
      | None => VStr (start_node graph)
      end /\
    (forall entry, last (log run) = Some entry ->
       next_of graph (node_id entry) (state_snapshot entry) =
         inr (lv_current_node_id vk)).
Proof.
  intros Hg Hit Hmax.
  assert (Hc : loop_cond graph vk = false).
  { unfold loop_cond. apply andb_false_iff. right. apply Z.ltb_ge. lia. }
  rewrite (run_graph_exits_at _ _ _ _ _ _ _ _ Hg Hit Hc).
  eexists _, _. split; [reflexivity|]. unfold after_loop.
  assert (Hle : (max_steps graph <=? lv_step_index vk) = true) by (apply Z.leb_le; lia).
  rewrite Hle. cbn.
  destruct (iterates_walk _ _ _ _ _ Hit) as (entries & Hl & Hlen & _ & _ & Hlast).
  cbn in Hl. rewrite Hl. repeat split; auto.
  - destruct (last entries) as [e|] eqn:He.
    + apply (Hlast e eq_refl).
    + apply last_None in He. rewrite He in Hlen. cbn in Hlen. subst k.
      inversion Hit; subst. reflexivity.
  - intros e He. apply (Hlast e He).
Qed.

(** ** What a run leaves alone *)

(** [run_graph] changes nothing but the entry of its own run: the registry
    and the graphs are as before, [get_run] answers as before for every
    other id, and when the call raises the engine and the tools' environment
    are untouched. *)
Theorem run_graph_changes_only_its_run
    self env uuid4 graph_id initial_state self' env' res :
  run_graph repr_str self env uuid4 graph_id initial_state = Some (self', env', res) ->
  tool_registry self' = tool_registry self /\
  graphs self' = graphs self /\
  (forall run_id, run_id <> uuid4 -> get_run self' run_id = get_run self run_id) /\
  (forall exc, res = inl exc -> self' = self /\ env' = env).
Proof.
  intros Hrun. destruct res as [exc|run].
  - pose proof (run_graph_inl _ _ _ _ _ _ _ _ _ Hrun) as ->.
    split; [reflexivity|]. split; [reflexivity|]. split; [reflexivity|].
    intros _ _. split; [reflexivity|].
    destruct (graphs self !! graph_id) as [graph|] eqn:Hg.
    + destruct (run_graph_known repr_str self env uuid4 graph_id initial_state graph Hg)
        as (k & vk & res & _ & _ & Hrun').
      rewrite Hrun' in Hrun. discriminate.
    + rewrite run_graph_unknown in Hrun by exact Hg. congruence.
  - destruct (run_graph_inr _ _ _ _ _ _ _ _ _ Hrun) as (graph & _ & _ & Ht & Hgs & Hr).
    split; [exact Ht|]. split; [exact Hgs|]. split; [|intros exc; discriminate].
    intros run_id Hne. unfold get_run.
    rewrite Hr, !lookup_insert_ne by congruence. reflexivity.
Qed.


(** ** The first step and static chains *)

Lemma next_of_VStr graph s new_state :
  next_of graph (VStr s) new_state =
    inr (if is_None (default VNone (new_state !! NEXT_NODE))
         then default VNone (edges graph !! s)
         else default VNone (new_state !! NEXT_NODE)).
Proof. unfold next_of. destruct (default VNone _); reflexivity. Qed.


Lemma chain_iterates tools graph path :
  static_chain tools graph path ->
  forall v,
    lv_current_node_id v = match path with [] => VNone | s :: _ => VStr s end ->
    state (lv_run v) !! NEXT_NODE = None ->
    lv_step_index v + Z.of_nat (length path) <= max_steps graph ->
    exists vk entries,
      iterates tools graph (length path) v vk /\
      lv_current_node_id vk = VNone /\
      log (lv_run vk) = log (lv_run v) ++ entries /\
      map node_id entries = map VStr path.
Proof.
  induction path as [|s rest IH]; intros Hchain v Hcur Hst Hle.
  - exists v, []. rewrite app_nil_r. repeat split; [constructor|exact Hcur].
  - destruct Hchain as ((node & tool & Hnode & Ht & Htool) & Hedge & Hrest).
    assert (Hn : dict_getitem (nodes graph) (lv_current_node_id v) = inr node).
    { rewrite Hcur. unfold dict_getitem, dict_lookup. cbn. rewrite Hnode. reflexivity. }
    destruct (Htool (lv_env v) (state (lv_run v)) Hst) as (st & Hr & Hno).
    assert (Hx : next_of graph (lv_current_node_id v) st =
                 inr (match rest with [] => VNone | s' :: _ => VStr s' end)).
    { rewrite Hcur, next_of_VStr, Hno, Hedge. reflexivity. }
    pose proof (loop_body_returns _ _ _ _ _ _ _ Hn Ht Hr Hx) as Hb.
    match type of Hb with _ = Next ?x => set (v1 := x) in Hb end.
    destruct (IH Hrest v1) as (vk & entries & Hit & Hend & Hlog & Hids).
    { reflexivity. }
    { cbn. apply lookup_delete_eq. }
    { cbn in Hle |- *. lia. }
    exists vk, (mkStepLog (lv_step_index v) (lv_current_node_id v) st :: entries).
    split; [|split; [exact Hend|split]].
    + econstructor; [|exact Hb|exact Hit].
      unfold loop_cond. rewrite Hcur. cbn in Hle |- *. apply Z.ltb_lt. lia.
    + rewrite Hlog. cbn. rewrite <- app_assoc. reflexivity.
    + cbn. rewrite Hcur, Hids. reflexivity.
Qed.

(** A graph whose static edges lead from the start node along a chain of
    nodes to a node without next node, with tools that do not branch on
    their own, run on an initial state without the reserved key: when the
    chain fits the budget, the log holds the nodes of the chain in order.
    The run is [completed] when the chain is shorter than the budget; when
    it is exactly as long as the budget the run is [failed] with the
    loop-guard message, although every node of the chain ran. *)
Theorem static_chain_runs_in_order self env uuid4 gid initial_state graph path :
  graphs self !! gid = Some graph ->
  static_chain (tool_registry self) graph path ->
  head path = Some (start_node graph) ->
  initial_state !! NEXT_NODE = None ->
  Z.of_nat (length path) <= max_steps graph ->
  exists self' env' run,
    run_graph repr_str self env uuid4 gid initial_state = Some (self', env', inr run) /\
    map node_id (log run) = map VStr path /\
    (Z.of_nat (length path) < max_steps graph ->
       status run = completed /\ error run = None /\ current_node run = VNone) /\
    (Z.of_nat (length path) = max_steps graph ->
       status run = failed /\ error run = Some MAX_STEPS_EXCEEDED).
Proof.
  intros Hg Hchain Hhead Hinit Hle.
  set (v0 := init_vars (init_run uuid4 gid graph initial_state) graph env).
  destruct (chain_iterates _ _ _ Hchain v0) as (vk & entries & Hit & Hend & Hlog & Hids).
  { destruct path as [|s rest]; [discriminate|]. cbn in Hhead. injection Hhead as ->.
    reflexivity. }
  { exact Hinit. }
  { cbn. exact Hle. }
  assert (Hc : loop_cond graph vk = false).
  { unfold loop_cond. rewrite Hend. reflexivity. }
  rewrite (run_graph_exits_at _ _ _ _ _ _ _ _ Hg Hit Hc).
  eexists _, _, _. split; [reflexivity|].
  pose proof (iterates_step_index _ _ _ _ _ Hit) as Hs. cbn in Hs.
  destruct (iterates_run_fields _ _ _ _ _ Hit) as (_ & _ & Herr). cbn in Herr.
  destruct (after_loop_fields graph vk) as (Hl & _). rewrite Hl, Hlog. cbn [app].
  split; [exact Hids|]. unfold after_loop. split.
  - intros Hlt. assert (Hm : (max_steps graph <=? lv_step_index vk) = false)
      by (apply Z.leb_gt; lia).
    rewrite Hm. cbn. auto.
  - intros Heq. assert (Hm : (max_steps graph <=? lv_step_index vk) = true)
      by (apply Z.leb_le; lia).
    rewrite Hm. cbn. auto.
Qed.

(** ** The default workflow and the create handler *)

Lemma node_of_config_named tools node_id t :
  node_of_config tools node_id {[ "tool_name" := VStr t ]} =
    if String.eqb t EmptyString
    then inl (ValueError ("Node '" +:+ node_id +:+ "' missing 'tool_name'"))
    else match tools !! t with
         | Some _ => inr (mkNode node_id (VStr t))
         | None => inl (KeyError (VStr ("Tool '" +:+ t +:+ "' not registered")))
         end.
Proof.
  unfold node_of_config. rewrite lookup_singleton_eq. cbn.
  destruct (String.eqb t EmptyString); cbn; [reflexivity|].
  unfold ToolRegistry_get, dict_lookup. cbn. destruct (tools !! t); reflexivity.
Qed.

(** [build_default_code_review_graph] needs the four tools of the workflow:
    when all of them are registered it stores a well-formed graph under the
    id it returns, with start node [extract], a budget of 50 steps and the
    four nodes bound to the four tools; when one of them is missing it
    raises the registry's [KeyError] for a missing tool and leaves the
    engine as it was. *)
Theorem default_graph_needs_its_tools (engine : GraphEngine W) uuid4 :
  let names :=
    ["extract_functions"; "check_complexity"; "detect_issues"; "suggest_improvements"] in
  (Forall (fun t => is_Some (tool_registry engine !! t)) names ->
   exists graph,
     build_default_code_review_graph engine uuid4 =
       (mkGraphEngine (tool_registry engine) (<[uuid4 := graph]> (graphs engine))
                      (runs engine), inr uuid4) /\
     well_formed_graph (tool_registry engine) uuid4 graph /\
     start_node graph = "extract" /\
     max_steps graph = 50 /\
     nodes graph !! "extract" = Some (mkNode "extract" (VStr "extract_functions")) /\
     nodes graph !! "complexity" = Some (mkNode "complexity" (VStr "check_complexity")) /\
     nodes graph !! "issues" = Some (mkNode "issues" (VStr "detect_issues")) /\
     nodes graph !! "suggest" = Some (mkNode "suggest" (VStr "suggest_improvements")) /\
     size (nodes graph) = 4%nat) /\
  (~ Forall (fun t => is_Some (tool_registry engine !! t)) names ->
   exists t,
     t ∈ names /\ tool_registry engine !! t = None /\
     build_default_code_review_graph engine uuid4 =
       (engine, inl (KeyError (VStr ("Tool '" +:+ t +:+ "' not registered"))))).
Proof.
  cbn zeta. unfold build_default_code_review_graph.
  destruct (create_graph engine uuid4 _ _ _ _ _) as [engine' res] eqn:Hc.
  pose proof Hc as Hc'. unfold create_graph in Hc'.
  rewrite bool_decide_eq_true_2 in Hc' by (cbn; left). cbn [negb build_nodes] in Hc'.
  rewrite !node_of_config_named in Hc'. cbn [String.eqb Ascii.eqb Bool.eqb] in Hc'.
  destruct (tool_registry engine !! "extract_functions") as [f1|] eqn:H1.
  2: { injection Hc' as <- <-. split.
       - intros Hall. apply Forall_cons in Hall as [[? Hx] _]. congruence.
       - intros _. exists "extract_functions". split; [left|auto]. }
  destruct (tool_registry engine !! "check_complexity") as [f2|] eqn:H2.
  2: { injection Hc' as <- <-. split.
       - intros Hall. apply Forall_cons in Hall as [_ Hall].
         apply Forall_cons in Hall as [[? Hx] _]. congruence.
       - intros _. exists "check_complexity". split; [right; left|auto]. }
  destruct (tool_registry engine !! "detect_issues") as [f3|] eqn:H3.
  2: { injection Hc' as <- <-. split.
       - intros Hall. do 2 apply Forall_cons in Hall as [_ Hall].
         apply Forall_cons in Hall as [[? Hx] _]. congruence.
       - intros _. exists "detect_issues". split; [right; right; left|auto]. }
  destruct (tool_registry engine !! "suggest_improvements") as [f4|] eqn:H4.
  2: { injection Hc' as <- <-. split.
       - intros Hall. do 3 apply Forall_cons in Hall as [_ Hall].
         apply Forall_cons in Hall as [[? Hx] _]. congruence.
       - intros _. exists "suggest_improvements". split; [right; right; right; left|auto]. }
  split.
  - intros _. injection Hc' as <- <-.
    pose proof (create_graph_well_formed _ _ _ _ _ _ _ _ _ Hc) as Hwf.
    eexists. split; [reflexivity|].
    split; [exact Hwf|]. cbn. repeat split; try (vm_compute; reflexivity).
  - intros Hnot. exfalso. apply Hnot. repeat constructor; eauto.
Qed.

Lemma build_nodes_of_request tools (l : list (string * GraphNodeConfig)) acc :
  let nodes_config :=
    map (fun item : string * GraphNodeConfig =>
           (item.1, ({[ "tool_name" := VStr (cfg_tool_name item.2) ]} : State))) l in
  let valid :=
    Forall (fun item : string * GraphNodeConfig =>
              cfg_tool_name item.2 <> EmptyString /\
              is_Some (tools !! cfg_tool_name item.2)) l in
  match build_nodes tools nodes_config acc with
  | inr _ => valid
  | inl (KeyError _) | inl (ValueError _) => ~ valid
  | inl _ => False
  end.
Proof.
  cbn zeta. revert acc. induction l as [|[i c] l IH]; intros acc; cbn [map build_nodes].
  - constructor.
  - cbn [fst snd]. rewrite node_of_config_named.
    destruct (String.eqb_spec (cfg_tool_name c) EmptyString) as [He|He].
    { intros Hall. apply Forall_cons in Hall as [[Hne _] _]. cbn in Hne. contradiction. }
    destruct (tools !! cfg_tool_name c) as [fn|] eqn:Hfn.
    2: { intros Hall. apply Forall_cons in Hall as [[_ [? Hs]] _]. cbn in Hs. congruence. }
    specialize (IH (<[i := mkNode i (VStr (cfg_tool_name c))]> acc)).
    destruct (build_nodes _ _ _) as [[| | |]|ns].
    + intros Hall. apply Forall_cons in Hall as [_ Hall]. contradiction.
    + intros Hall. apply Forall_cons in Hall as [_ Hall]. contradiction.
    + contradiction.
    + contradiction.
    + constructor; [cbn; eauto|exact IH].
Qed.

(** The create handler answers every well-typed request with a response or
    with status 400, never with another exception.  It responds, with the
    new id and the name of the request, exactly when the start node is one
    of the nodes and every node names a registered tool with a name that is
    not empty; the graph is then stored under that id.  On status 400 the
    engine is unchanged. *)
Theorem api_create_graph_answers (engine : GraphEngine W) uuid4 payload :
  let valid :=
    req_start_node payload ∈ (req_nodes payload).*1 /\
    Forall (fun item : string * GraphNodeConfig =>
              cfg_tool_name item.2 <> EmptyString /\
              is_Some (tool_registry engine !! cfg_tool_name item.2))
           (req_nodes payload) in
  match api_create_graph repr_str engine uuid4 payload with
  | (engine', Respond body) =>
      valid /\
      body = mkGraphCreatedResponse uuid4 (req_name payload) /\
      (exists graph,
         graphs engine' = <[uuid4 := graph]> (graphs engine) /\
         start_node graph = req_start_node payload /\
         max_steps graph = req_max_steps payload /\
         edges graph = of_optional <$> req_edges payload) /\
      runs engine' = runs engine /\
      tool_registry engine' = tool_registry engine
  | (engine', HTTPException status_code detail) =>
      ~ valid /\ status_code = 400 /\ engine' = engine
  | (engine', Propagates exc) => False
  end.
Proof.
  cbn zeta. unfold api_create_graph, create_graph.
  assert (Hkeys : (map (fun item : string * GraphNodeConfig =>
                     (item.1, ({[ "tool_name" := VStr (cfg_tool_name item.2) ]} : State)))
                   (req_nodes payload)).*1 = (req_nodes payload).*1).
  { induction (req_nodes payload) as [|[i c] l IH]; [reflexivity|].
    cbn. f_equal. exact IH. }
  rewrite Hkeys.
  destruct (bool_decide_reflect (req_start_node payload ∈ (req_nodes payload).*1))
    as [Hin|Hnot]; cbn [negb].
  2: { cbn. split; [|auto]. intros [? _]. contradiction. }
  pose proof (build_nodes_of_request (tool_registry engine) (req_nodes payload) ∅) as Hb.
  cbn zeta in Hb.
  destruct (build_nodes _ _ _) as [[arg|msg|msg|text]|ns]; cbn.
  - split; [|auto]. intros [_ Hall]. contradiction.
  - split; [|auto]. intros [_ Hall]. contradiction.
  - contradiction.
  - contradiction.
  - repeat split; auto. eexists. split; [reflexivity|]. cbn. auto.
Qed.

End MoreProperties.

(** ** The further properties at concrete inputs *)

Import MoreExamples.

Lemma register_then_get_witness :
  ToolRegistry_get (ToolRegistry_register tools "identity" stop_tool) (VStr "stop") =
  ToolRegistry_get tools (VStr "stop").
Proof.
  apply (proj1 (proj2 (register_then_get tools "identity" stop_tool))).
  discriminate.
Defined.

Lemma create_graph_builds_the_nodes_witness :
  let nodes_config :=
    [("A", cfg "identity"); ("B", cfg "identity"); ("C", cfg "identity")] in
  NoDup nodes_config.*1 /\
  "A" ∈ nodes_config.*1 /\
  Forall (fun item => exists node,
            node_of_config (tool_registry engine0) item.1 item.2 = inr node) nodes_config /\
  exists ns,
    create_graph engine0 "g-abc" "abc" nodes_config {[ "A" := VStr "B"; "B" := VStr "C" ]}
      "A" 100 =
      (mkGraphEngine (tool_registry engine0)
         (<["g-abc" := mkGraph "g-abc" "abc" ns {[ "A" := VStr "B"; "B" := VStr "C" ]} "A" 100]>
            (graphs engine0)) (runs engine0),
       inr (mkGraph "g-abc" "abc" ns {[ "A" := VStr "B"; "B" := VStr "C" ]} "A" 100)) /\
    (forall node_id c, (node_id, c) ∈ nodes_config ->
       ns !! node_id = Some (mkNode node_id (default VNone (c !! "tool_name")))) /\
    (forall node_id, node_id ∉ nodes_config.*1 -> ns !! node_id = None).
Proof.
  intros nodes_config.
  assert (H1 : NoDup nodes_config.*1).
  { apply (bool_decide_unpack _). vm_compute. exact I. }
  assert (H2 : "A" ∈ nodes_config.*1) by (cbn; left).
  assert (H3 : Forall (fun item => exists node,
                 node_of_config (tool_registry engine0) item.1 item.2 = inr node)
                 nodes_config).
  { repeat constructor; eexists; vm_compute; reflexivity. }
  repeat (split; [assumption|]).
  exact (create_graph_builds_the_nodes engine0 "g-abc" "abc" nodes_config
           {[ "A" := VStr "B"; "B" := VStr "C" ]} "A" 100 H1 H2 H3).
Defined.

Lemma engine_abc_history : history repr_plain engine_abc [].
Proof.
  apply (history_create_graph unit repr_plain engine0 [] "g-abc" "abc"
           [("A", cfg "identity"); ("B", cfg "identity"); ("C", cfg "identity")]
           {[ "A" := VStr "B"; "B" := VStr "C" ]} "A" 100).
  apply history_init.
Defined.

Lemma abc_run_returns :
  run_graph repr_plain engine_abc tt "run-1" "g-abc" abc_state =
    Some (engine_of abc_result, tt, inr (run_of abc_result)).
Proof. vm_compute. reflexivity. Defined.

Lemma abc_graph_stored : graphs engine_abc !! "g-abc" = Some abc_graph.
Proof. vm_compute. reflexivity. Defined.

Lemma stored_graphs_are_well_formed_witness :
  history repr_plain engine_abc [] /\
  graphs engine_abc !! "g-abc" = Some abc_graph /\
  well_formed_graph (tool_registry engine_abc) "g-abc" abc_graph /\
  (exists node, dict_getitem (nodes abc_graph) (VStr (start_node abc_graph)) = inr node) /\
  (forall key node, dict_getitem (nodes abc_graph) key = inr node ->
     exists tool, ToolRegistry_get (tool_registry engine_abc) (tool_name node) = inr tool).
Proof.
  split; [exact engine_abc_history|]. split; [exact abc_graph_stored|].
  exact (stored_graphs_are_well_formed repr_plain engine_abc [] "g-abc" abc_graph
           engine_abc_history abc_graph_stored).
Defined.

Lemma nonpositive_budget_runs_no_tool_witness :
  graphs engine_zero !! "g-zero" = Some zero_graph /\
  max_steps zero_graph <= 0 /\
  run_graph repr_plain engine_zero tt "run-1" "g-zero" abc_state =
    Some (mkGraphEngine (tool_registry engine_zero) (graphs engine_zero)
            (<["run-1" := mkGraphRun "run-1" "g-zero" failed (VStr (start_node zero_graph))
                            abc_state [] (Some MAX_STEPS_EXCEEDED)]> (runs engine_zero)),
          tt,
          inr (mkGraphRun "run-1" "g-zero" failed (VStr (start_node zero_graph))
                 abc_state [] (Some MAX_STEPS_EXCEEDED))).
Proof.
  assert (H1 : graphs engine_zero !! "g-zero" = Some zero_graph)
    by (vm_compute; reflexivity).
  assert (H2 : max_steps zero_graph <= 0) by (vm_compute; discriminate).
  split; [exact H1|]. split; [exact H2|].
  exact (nonpositive_budget_runs_no_tool repr_plain engine_zero tt "run-1" "g-zero"
           abc_state zero_graph H1 H2).
Defined.

Lemma unresolved_node_fails_the_run_witness :
  graphs engine_dangling !! "g-dangling" = Some dangling_graph /\
  iterates (tool_registry engine_dangling) dangling_graph 1 dangling_v0 dangling_v1 /\
  loop_cond dangling_graph dangling_v1 = true /\
  dict_getitem (nodes dangling_graph) (lv_current_node_id dangling_v1) =
    inl (KeyError (VStr "ghost")) /\
  exists self' run,
    run_graph repr_plain engine_dangling tt "run-1" "g-dangling" ∅ =
      Some (self', lv_env dangling_v1, inr run) /\
    status run = failed /\
    error run = Some (str_exc repr_plain (KeyError (VStr "ghost"))) /\
    (forall s, lv_current_node_id dangling_v1 = VStr s -> error run = Some (repr_plain s)) /\
    current_node run = lv_current_node_id dangling_v1 /\
    log run = log (lv_run dangling_v1) /\
    length (log run) = 1%nat /\
    state run = state (lv_run dangling_v1).
Proof.
  assert (H1 : graphs engine_dangling !! "g-dangling" = Some dangling_graph)
    by (vm_compute; reflexivity).
  assert (H2 : iterates (tool_registry engine_dangling) dangling_graph 1
                 dangling_v0 dangling_v1).
  { econstructor; [vm_compute; reflexivity|vm_compute; reflexivity|constructor]. }
  assert (H3 : loop_cond dangling_graph dangling_v1 = true) by (vm_compute; reflexivity).
  assert (H4 : dict_getitem (nodes dangling_graph) (lv_current_node_id dangling_v1) =
               inl (KeyError (VStr "ghost"))) by (vm_compute; reflexivity).
  repeat (split; [assumption|]).
  exact (unresolved_node_fails_the_run repr_plain engine_dangling tt "run-1" "g-dangling" ∅
           dangling_graph 1 dangling_v1 (KeyError (VStr "ghost")) H1 H2 H3 H4).
Defined.

Lemma log_is_a_walk_witness :
  graphs engine_abc !! "g-abc" = Some abc_graph /\
  abc_result = Some (engine_of abc_result, tt, inr (run_of abc_result)) /\
  (forall i entry entry',
     log (run_of abc_result) !! i = Some entry ->
     log (run_of abc_result) !! S i = Some entry' ->
     next_of abc_graph (node_id entry) (state_snapshot entry) = inr (node_id entry')).
Proof.
  split; [exact abc_graph_stored|]. split; [exact abc_run_returns|].
  exact (proj2 (proj2 (log_is_a_walk repr_plain engine_abc tt "run-1" "g-abc" abc_state
                         abc_graph _ _ _ abc_graph_stored abc_run_returns))).
Defined.


Lemma completed_run_shape_witness :
  graphs engine_abc !! "g-abc" = Some abc_graph /\
  abc_result = Some (engine_of abc_result, tt, inr (run_of abc_result)) /\
  status (run_of abc_result) <> running /\
  (status (run_of abc_result) = completed <-> error (run_of abc_result) = None).
Proof.
  split; [exact abc_graph_stored|]. split; [exact abc_run_returns|].
  destruct (completed_run_shape repr_plain engine_abc tt "run-1" "g-abc" abc_state
              abc_graph _ _ _ abc_graph_stored abc_run_returns) as (H1 & H2 & _).
  exact (conj H1 H2).
Defined.

Lemma budget_failure_keeps_last_node_witness :
  graphs engine_single !! "g-single" = Some single_graph /\
  iterates (tool_registry engine_single) single_graph 1 single_v0 single_v1 /\
  max_steps single_graph <= lv_step_index single_v1 /\
  exists self' run,
    run_graph repr_plain engine_single tt "run-1" "g-single" ∅ =
      Some (self', lv_env single_v1, inr run) /\
    status run = failed /\
    error run = Some MAX_STEPS_EXCEEDED /\
    length (log run) = 1%nat /\
    current_node run =
      match last (log run) with
      | Some entry => node_id entry
      | None => VStr (start_node single_graph)
      end /\
    (forall entry, last (log run) = Some entry ->
       next_of single_graph (node_id entry) (state_snapshot entry) =
         inr (lv_current_node_id single_v1)).
Proof.
  assert (H1 : graphs engine_single !! "g-single" = Some single_graph)
    by (vm_compute; reflexivity).
  assert (H2 : iterates (tool_registry engine_single) single_graph 1 single_v0 single_v1).
  { econstructor; [vm_compute; reflexivity|vm_compute; reflexivity|constructor]. }
  assert (H3 : max_steps single_graph <= lv_step_index single_v1)
    by (vm_compute; discriminate).
  repeat (split; [assumption|]).
  exact (budget_failure_keeps_last_node repr_plain engine_single tt "run-1" "g-single" ∅
           single_graph 1 single_v1 H1 H2 H3).
Defined.

Lemma run_graph_changes_only_its_run_witness :
  abc_result = Some (engine_of abc_result, tt, inr (run_of abc_result)) /\
  tool_registry (engine_of abc_result) = tool_registry engine_abc /\
  graphs (engine_of abc_result) = graphs engine_abc /\
  (forall run_id, run_id <> "run-1" ->
     get_run (engine_of abc_result) run_id = get_run engine_abc run_id) /\
  (forall exc, (inr (run_of abc_result) : PyExc + GraphRun) = inl exc ->
     engine_of abc_result = engine_abc /\ tt = tt).
Proof.
  split; [exact abc_run_returns|].
  exact (run_graph_changes_only_its_run repr_plain engine_abc tt "run-1" "g-abc" abc_state
           _ _ _ abc_run_returns).
Defined.




Lemma identity_adds_no_branch node : adds_no_branch node identity_tool.
Proof.
  intros w st Hst. exists st. split; [reflexivity|]. rewrite Hst. reflexivity.
Defined.

Local Ltac identity_node n :=
  exists (mkNode n (VStr "identity")), identity_tool;
  split; [vm_compute; reflexivity
         |split; [vm_compute; reflexivity|apply identity_adds_no_branch]].

Lemma static_chain_runs_in_order_witness :
  graphs engine_abc !! "g-abc" = Some abc_graph /\
  static_chain (tool_registry engine_abc) abc_graph ["A"; "B"; "C"] /\
  head ["A"; "B"; "C"] = Some (start_node abc_graph) /\
  abc_state !! NEXT_NODE = None /\
  Z.of_nat (length ["A"; "B"; "C"]) <= max_steps abc_graph /\
  exists self' env' run,
    run_graph repr_plain engine_abc tt "run-1" "g-abc" abc_state =
      Some (self', env', inr run) /\
    map node_id (log run) = map VStr ["A"; "B"; "C"] /\
    (Z.of_nat (length ["A"; "B"; "C"]) < max_steps abc_graph ->
       status run = completed /\ error run = None /\ current_node run = VNone) /\
    (Z.of_nat (length ["A"; "B"; "C"]) = max_steps abc_graph ->
       status run = failed /\ error run = Some MAX_STEPS_EXCEEDED).
Proof.
  assert (H2 : static_chain (tool_registry engine_abc) abc_graph ["A"; "B"; "C"]).
  { cbn [static_chain].
    split; [identity_node "A"|]. split; [vm_compute; reflexivity|].
    split; [identity_node "B"|]. split; [vm_compute; reflexivity|].
    split; [identity_node "C"|]. split; [vm_compute; reflexivity|exact I]. }
  assert (H3 : head ["A"; "B"; "C"] = Some (start_node abc_graph)) by reflexivity.
  assert (H4 : abc_state !! NEXT_NODE = None) by (vm_compute; reflexivity).
  assert (H5 : Z.of_nat (length ["A"; "B"; "C"]) <= max_steps abc_graph)
    by (vm_compute; discriminate).
  split; [exact abc_graph_stored|]. repeat (split; [assumption|]).
  exact (static_chain_runs_in_order repr_plain engine_abc tt "run-1" "g-abc" abc_state
           abc_graph ["A"; "B"; "C"] abc_graph_stored H2 H3 H4 H5).
Defined.

Lemma default_graph_needs_its_tools_witness :
  Forall (fun t => is_Some (tool_registry review_engine !! t))
    ["extract_functions"; "check_complexity"; "detect_issues"; "suggest_improvements"] /\
  exists graph,
    build_default_code_review_graph review_engine "g-review" =
      (mkGraphEngine (tool_registry review_engine)
         (<["g-review" := graph]> (graphs review_engine)) (runs review_engine),
       inr "g-review") /\
    well_formed_graph (tool_registry review_engine) "g-review" graph.
Proof.
  assert (H1 : Forall (fun t => is_Some (tool_registry review_engine !! t))
                 ["extract_functions"; "check_complexity"; "detect_issues";
                  "suggest_improvements"]).
  { repeat constructor; eexists; vm_compute; reflexivity. }
  split; [exact H1|].
  destruct (proj1 (default_graph_needs_its_tools review_engine "g-review") H1)
    as (graph & Hb & Hwf & _).
  exists graph. exact (conj Hb Hwf).
Defined.
